(** * Mainstay attestation service: the driver state machine

    A shallow embedding of [attestation/attestservice.go] (package
    [attestation]): the [AttestService] structure, the package-level timing
    variables, the nine state handlers, [doAttestation], [setFailure],
    [NewAttestService] and [Run].

    The driver talks to four collaborators that live outside this file of the
    repository (attest client, server/store, wallet RPC client, signer
    transport).  What they answer during one tick is a [World]; what the
    driver asks of them is recorded, in order, in a trace of [Event]s.  A Go
    run-time panic (dereferencing a nil pointer) is an outcome of its own. *)

From Stdlib Require Import ZArith List String Bool Lia.
From Stdlib Require Import Init.Byte.
Import ListNotations.

Local Open Scope Z_scope.
Local Open Scope string_scope.
Local Open Scope list_scope.

(** ** Basic Go data *)

(** A Go [error] value: [nil] or an error carrying its message. *)
Definition error := option string.

(** [chainhash.Hash] is [[32]byte]; Go compares arrays element by element. *)
Definition Hash := list byte.

Definition zeroHash : Hash := repeat x00 32.

Fixpoint Hash_eqb (a b : Hash) : bool :=
  match a, b with
  | [], [] => true
  | x :: a', y :: b' => Byte.eqb x y && Hash_eqb a' b'
  | _, _ => false
  end.

(** [(&h).CloneBytes()]: the bytes of the hash as a fresh slice. *)
Definition CloneBytes (h : Hash) : list byte := h.

(** [time.Duration] is an [int64] count of nanoseconds. *)
Definition Duration := Z.

Definition minDuration : Z := - 2 ^ 63.
Definition maxDuration : Z := 2 ^ 63 - 1.

(** Wrap-around of [int64] arithmetic. *)
Definition wrap64 (z : Z) : Z := (z + 2 ^ 63) mod 2 ^ 64 - 2 ^ 63.

Definition Duration_mul (a b : Duration) : Duration := wrap64 (a * b).
Definition Duration_sub (a b : Duration) : Duration := wrap64 (a - b).

Definition Second : Duration := 1000000000.
Definition Minute : Duration := 60 * Second.

(** A [time.Time], as nanoseconds on the process clock. *)
Definition Time := Z.

(** [time.Since(t)] read when the clock shows [now]: the difference,
    saturated to the range of [Duration] as [Time.Sub] does. *)
Definition Since (now t : Time) : Duration :=
  Z.max minDuration (Z.min maxDuration (now - t)).

(** ** Constants of the package *)

Inductive AttestationState :=
| ASTATE_ERROR
| ASTATE_INIT
| ASTATE_NEXT_COMMITMENT
| ASTATE_NEW_ATTESTATION
| ASTATE_SIGN_ATTESTATION
| ASTATE_PRE_SEND_STORE
| ASTATE_SEND_ATTESTATION
| ASTATE_AWAIT_CONFIRMATION
| ASTATE_HANDLE_UNCONFIRMED.

(** The integer codes of the Go constants. *)
Definition AttestationState_code (s : AttestationState) : Z :=
  match s with
  | ASTATE_ERROR => -1
  | ASTATE_INIT => 0
  | ASTATE_NEXT_COMMITMENT => 1
  | ASTATE_NEW_ATTESTATION => 2
  | ASTATE_SIGN_ATTESTATION => 3
  | ASTATE_PRE_SEND_STORE => 4
  | ASTATE_SEND_ATTESTATION => 5
  | ASTATE_AWAIT_CONFIRMATION => 6
  | ASTATE_HANDLE_UNCONFIRMED => 7
  end.

Definition ERROR_UNSPENT_NOT_FOUND := "No valid unspent found".
Definition WARNING_INVALID_ATIME_NEW_ATTESTATION_ARG :=
  "Warning - Invalid new attestation time argument".
Definition WARNING_INVALID_ATIME_HANDLE_UNCONFIRMED_ARG :=
  "Warning - Invalid handle unconfirmed time argument".

Definition ATIME_FIXED : Duration := 5 * Second.
Definition ATIME_SIGS : Duration := 1 * Minute.
Definition ATIME_CONFIRMATION : Duration := 15 * Minute.
Definition DEFAULT_ATIME_NEW_ATTESTATION : Duration := 60 * Minute.
Definition DEFAULT_ATIME_HANDLE_UNCONFIRMED : Duration := 60 * Minute.

(** ** Types of the btcd libraries *)

(** [wire.OutPoint], [wire.TxIn], [wire.TxOut] and [wire.MsgTx]. *)
Record OutPoint := {
  OutPointHash : Hash;
  OutPointIndex : Z
}.

Record TxIn := {
  PreviousOutPoint : OutPoint;
  SignatureScript : list byte;
  Witness : list (list byte);
  Sequence : Z
}.

Record TxOut := {
  Value : Z;
  PkScript : list byte
}.

Record MsgTx := {
  Version : Z;
  TxIns : list TxIn;
  TxOuts : list TxOut;
  LockTime : Z
}.

(** The zero value [wire.MsgTx{}]. *)
Definition MsgTx_zero : MsgTx :=
  {| Version := 0; TxIns := []; TxOuts := []; LockTime := 0 |}.

(** The functions of [wire] and [chainhash] that the driver calls: the hash
    and the serialisation of a transaction, and the parser of a hash from
    its hexadecimal string.  The parser returns a pointer, which is nil when
    it fails. *)
Class BtcLib := {
  TxHash : MsgTx -> Hash;
  Serialize : MsgTx -> list byte;
  NewHashFromStr : string -> option Hash * error
}.

(** [btcjson.ListUnspentResult]; the driver reads [TxID] only. *)
Record ListUnspentResult := {
  TxID : string;
  Vout : Z;
  ScriptPubKey : string
}.

(** [btcjson.GetTransactionResult]; [BlockHash] is empty until the
    transaction is mined. *)
Record GetTransactionResult := {
  BlockHash : string;
  BlockTime : Z
}.

(** [*btcutil.WIF] and the interface [btcutil.Address]: both can be nil. *)
Definition WIF := option string.
Definition Address := option string.

(** The signatures drained from the signers, one bag per transaction input. *)
Definition Sigs := list (list (list byte)).

(** ** Package [models] *)

(** Modelled from the spec: [models.Commitment] is not among the sources.
    The spec gives it a Merkle root and the ordered leaf hashes;
    [GetCommitmentHash] is that root. *)
Record Commitment := {
  root : Hash;
  leaves : list Hash
}.

Definition GetCommitmentHash (c : Commitment) : Hash := root c.

(** Modelled from the spec: the block-inclusion metadata of an attestation
    (block hash and time). *)
Record AttestationInfo := {
  Blockhash : string;
  InfoTime : Z
}.

Definition AttestationInfo_zero : AttestationInfo :=
  {| Blockhash := ""; InfoTime := 0 |}.

(** Modelled from the spec: [models.Attestation] is not among the sources.
    The driver reads and writes the exported fields [Txid], [Tx], [Confirmed]
    and goes through methods for the rest; the commitment is held by
    pointer, nil in a default attestation. *)
Record Attestation := {
  Txid : Hash;
  Tx : MsgTx;
  Confirmed : bool;
  Info : AttestationInfo;
  commitment : option Commitment
}.

(** Modelled from the spec: an attestation for a transaction and its
    commitment, not confirmed and with an empty transaction. *)
Definition NewAttestation (txid : Hash) (c : option Commitment) : Attestation :=
  {| Txid := txid; Tx := MsgTx_zero; Confirmed := false;
     Info := AttestationInfo_zero; commitment := c |}.

(** Modelled from the spec: the default attestation has the zero txid and no
    commitment. *)
Definition NewAttestationDefault : Attestation :=
  NewAttestation zeroHash None.

(** Modelled from the spec: the commitment root of the attestation, the zero
    hash when it has no commitment. *)
Definition CommitmentHash (a : Attestation) : Hash :=
  match commitment a with
  | Some c => GetCommitmentHash c
  | None => zeroHash
  end.

Definition SetCommitment (c : Commitment) (a : Attestation) : Attestation :=
  {| Txid := Txid a; Tx := Tx a; Confirmed := Confirmed a;
     Info := Info a; commitment := Some c |}.

Definition set_Txid (h : Hash) (a : Attestation) : Attestation :=
  {| Txid := h; Tx := Tx a; Confirmed := Confirmed a;
     Info := Info a; commitment := commitment a |}.

Definition set_Tx (tx : MsgTx) (a : Attestation) : Attestation :=
  {| Txid := Txid a; Tx := tx; Confirmed := Confirmed a;
     Info := Info a; commitment := commitment a |}.

Definition set_Confirmed (b : bool) (a : Attestation) : Attestation :=
  {| Txid := Txid a; Tx := Tx a; Confirmed := b;
     Info := Info a; commitment := commitment a |}.

(** Modelled from the spec: [UpdateInfo] copies the block metadata of the
    wallet's answer into the attestation. *)
Definition UpdateInfo (tx : GetTransactionResult) (a : Attestation) : Attestation :=
  {| Txid := Txid a; Tx := Tx a; Confirmed := Confirmed a;
     Info := {| Blockhash := BlockHash tx; InfoTime := BlockTime tx |};
     commitment := commitment a |}.

(** ** The collaborators *)

(** The answers of the collaborators during one tick.  Every operation is
    called at most once per tick, so a function of its arguments covers all
    behaviours; [clock w k] is the [k]-th reading of the clock in the tick.
    A result of pointer or interface type is an [option], [None] being nil;
    Go lets it be nil whatever the error is. *)
Record World := {
  (* attest client *)
  getUnconfirmedTx : bool * Hash * error;
  findLastUnspent : bool * ListUnspentResult * error;
  findTopupUnspent : bool * ListUnspentResult * error;
  GetNextAttestationKey : Hash -> WIF * error;
  GetNextAttestationAddr : WIF -> Hash -> Address * error;
  ImportAttestationAddr : Address -> error;
  createAttestation : Address -> list ListUnspentResult -> option MsgTx * error;
  signAttestation : MsgTx -> Sigs -> Hash -> option MsgTx * error;
  sendAttestation : MsgTx -> Hash * error;
  (* works on the transaction in place, through the pointer it is given *)
  bumpAttestationFees : MsgTx -> MsgTx * error;
  (* server *)
  GetAttestationCommitment : Hash -> list bool -> Commitment * error;
  GetClientCommitment : Commitment * error;
  GetLatestAttestationCommitmentHash : list bool -> Hash * error;
  UpdateLatestAttestation : Attestation -> error;
  (* wallet *)
  GetRawTransaction : Hash -> option MsgTx * error;
  GetTransaction : Hash -> option GetTransactionResult * error;
  (* signer *)
  GetSigs : Sigs;
  (* time.Now / time.Since *)
  clock : nat -> Time
}.

(** What the collaborators and the log observe.  A log line is recorded by
    its format string. *)
Inductive Event :=
| Log (format : string)
| Exit (code : Z)
| NewTimer (d : Duration)
| WgDone
| ClientGetUnconfirmedTx
| ClientFindLastUnspent
| ClientFindTopupUnspent
| ClientGetNextAttestationKey (h : Hash)
| ClientGetNextAttestationAddr (key : WIF) (h : Hash)
| ClientImportAttestationAddr (addr : Address)
| ClientCreateAttestation (addr : Address) (unspents : list ListUnspentResult)
| ClientSignAttestation (tx : MsgTx) (sigs : Sigs) (h : Hash)
| ClientSendAttestation (tx : MsgTx) (res : Hash * error)
| ClientBumpAttestationFees (tx : MsgTx)
| FeesResetFee (regtest : bool)
| ServerGetAttestationCommitment (txid : Hash) (confirmed : list bool)
| ServerGetClientCommitment
| ServerGetLatestAttestationCommitmentHash (confirmed : list bool)
| ServerUpdateLatestAttestation (a : Attestation) (res : error)
| WalletGetRawTransaction (txid : Hash)
| WalletGetTransaction (txid : Hash)
| SignerSendNewHash (bytes : list byte)
| SignerSendNewTx (bytes : list byte)
| SignerSendConfirmedHash (bytes : list byte)
| SignerGetSigs.

(** ** The service and the package variables *)

(** The fields of [AttestService] that the driver reads and writes; [ctx],
    [wg], [config], [attester], [server] and [signer] are the handles to the
    collaborators above. *)
Record AttestService := {
  state : AttestationState;
  attestation : Attestation;
  errorState : error;
  isRegtest : bool
}.

(** The package-level [var] block. *)
Record Globals := {
  atimeNewAttestation : Duration;
  atimeHandleUnconfirmed : Duration;
  attestDelay : Duration;
  confirmTime : Time
}.

(** The whole of the driver: service, package variables and the events so
    far, the latest first. *)
Record Machine := {
  svc : AttestService;
  vars : Globals;
  trace : list Event
}.

(** The events in the order they happened. *)
Definition history (m : Machine) : list Event := rev (trace m).

(** ** A monad for the handlers: state, trace and panic *)

Inductive Result (A : Type) :=
| Ok (a : A) (m : Machine)
| Panic (m : Machine).

Arguments Ok {A} a m.
Arguments Panic {A} m.

Definition M (A : Type) := Machine -> Result A.

Definition ret {A} (a : A) : M A := fun m => Ok a m.

Definition bind {A B} (c : M A) (k : A -> M B) : M B :=
  fun m => match c m with
           | Ok a m' => k a m'
           | Panic m' => Panic m'
           end.

Definition panic {A} : M A := fun m => Panic m.

(** The machine a computation ends in, also when it panics. *)
Definition machine_of {A} (r : Result A) : Machine :=
  match r with Ok _ m => m | Panic m => m end.

Definition gets {A} (f : Machine -> A) : M A := fun m => Ok (f m) m.

Definition modify (f : Machine -> Machine) : M unit := fun m => Ok tt (f m).

Declare Scope driver_scope.
Delimit Scope driver_scope with driver.
Notation "x <- c ;; k" := (bind c (fun x => k))
  (at level 61, c at next level, right associativity) : driver_scope.
Notation "c ;; k" := (bind c (fun _ => k))
  (at level 61, right associativity) : driver_scope.

Local Open Scope driver_scope.

Section Handlers.

Context {lib : BtcLib}.

(** ** Assignments to the fields *)

Definition with_svc (f : AttestService -> AttestService) (m : Machine) : Machine :=
  {| svc := f (svc m); vars := vars m; trace := trace m |}.

Definition with_vars (f : Globals -> Globals) (m : Machine) : Machine :=
  {| svc := svc m; vars := f (vars m); trace := trace m |}.

(** [s.state = st] *)
Definition set_state (st : AttestationState) : M unit :=
  modify (with_svc (fun s =>
    {| state := st; attestation := attestation s;
       errorState := errorState s; isRegtest := isRegtest s |})).

(** [s.attestation = a], and the writes through [s.attestation]. *)
Definition update_attestation (f : Attestation -> Attestation) : M unit :=
  modify (with_svc (fun s =>
    {| state := state s; attestation := f (attestation s);
       errorState := errorState s; isRegtest := isRegtest s |})).

Definition set_attestation (a : Attestation) : M unit :=
  update_attestation (fun _ => a).

(** [s.errorState = err] *)
Definition set_errorState (err : error) : M unit :=
  modify (with_svc (fun s =>
    {| state := state s; attestation := attestation s;
       errorState := err; isRegtest := isRegtest s |})).

(** [attestDelay = d] *)
Definition set_attestDelay (d : Duration) : M unit :=
  modify (with_vars (fun g =>
    {| atimeNewAttestation := atimeNewAttestation g;
       atimeHandleUnconfirmed := atimeHandleUnconfirmed g;
       attestDelay := d; confirmTime := confirmTime g |})).

(** [confirmTime = t] *)
Definition set_confirmTime (t : Time) : M unit :=
  modify (with_vars (fun g =>
    {| atimeNewAttestation := atimeNewAttestation g;
       atimeHandleUnconfirmed := atimeHandleUnconfirmed g;
       attestDelay := attestDelay g; confirmTime := t |})).

Definition emit (e : Event) : M unit :=
  modify (fun m => {| svc := svc m; vars := vars m; trace := e :: trace m |}).

Definition log (format : string) : M unit := emit (Log format).

(** Reading through a pointer: a nil pointer panics. *)
Definition deref {A} (p : option A) : M A :=
  match p with
  | Some a => ret a
  | None => panic
  end.

(** One log line per element, as [for i := range xs { log.Printf(...) }]. *)
Fixpoint log_each {A} (format : string) (xs : list A) : M unit :=
  match xs with
  | [] => ret tt
  | _ :: rest => log format ;; log_each format rest
  end.

(** ** The handlers *)

(** [setFailure]: check if there is an error and set the error state. *)
Definition setFailure (err : error) : M bool :=
  match err with
  | Some e =>
      set_errorState (Some e) ;;
      set_state ASTATE_ERROR ;;
      ret true
  | None => ret false
  end.

(** ASTATE_ERROR *)
Definition doStateError : M unit :=
  log "*AttestService* ATTESTATION SERVICE FAILURE" ;;
  log "%v" ;;
  set_state ASTATE_INIT.

(** Part of ASTATE_INIT: an unconfirmed transaction is in the mempool. *)
Definition stateInitUnconfirmed (w : World) (unconfirmedTxid : Hash) : M unit :=
  let '(commitment, commitmentErr) :=
    GetAttestationCommitment w unconfirmedTxid [false] in
  emit (ServerGetAttestationCommitment unconfirmedTxid [false]) ;;
  failed <- setFailure commitmentErr ;;
  if failed then ret tt else
  log "********** found unconfirmed attestation: %s\n" ;;
  set_attestation (NewAttestation unconfirmedTxid (Some commitment)) ;;
  let '(rawTx, _) := GetRawTransaction w unconfirmedTxid in
  emit (WalletGetRawTransaction unconfirmedTxid) ;;
  (* rawTx.MsgTx() reads through rawTx *)
  tx <- deref rawTx ;;
  update_attestation (set_Tx tx) ;;
  set_state ASTATE_AWAIT_CONFIRMATION ;;
  set_confirmTime (clock w 0).

(** Part of ASTATE_INIT: an unspent transaction is in the wallet. *)
Definition stateInitUnspent (w : World) (unspent : ListUnspentResult) : M unit :=
  let '(unspentTxid, _) := NewHashFromStr (TxID unspent) in
  (* *unspentTxid *)
  txid <- deref unspentTxid ;;
  let '(commitment, commitmentErr) := GetAttestationCommitment w txid [] in
  emit (ServerGetAttestationCommitment txid []) ;;
  failed <- setFailure commitmentErr ;;
  if failed then ret tt else
  let inform : M unit :=
    a <- gets (fun m => attestation (svc m)) ;;
    emit (SignerSendConfirmedHash (CloneBytes (CommitmentHash a))) ;;
    set_state ASTATE_NEXT_COMMITMENT in
  if negb (Hash_eqb (GetCommitmentHash commitment) zeroHash) then
    log "********** found confirmed attestation: %s\n" ;;
    set_attestation (NewAttestation txid (Some commitment)) ;;
    update_attestation (set_Confirmed true) ;;
    let '(rawTx, _) := GetRawTransaction w txid in
    emit (WalletGetRawTransaction txid) ;;
    let '(walletTx, _) := GetTransaction w txid in
    emit (WalletGetTransaction txid) ;;
    tx <- deref rawTx ;;
    update_attestation (set_Tx tx) ;;
    (* UpdateInfo reads the fields of walletTx *)
    info <- deref walletTx ;;
    update_attestation (UpdateInfo info) ;;
    a <- gets (fun m => attestation (svc m)) ;;
    let errUpdate := UpdateLatestAttestation w a in
    emit (ServerUpdateLatestAttestation a errUpdate) ;;
    failed <- setFailure errUpdate ;;
    if failed then ret tt else
    inform
  else
    log "********** found unspent transaction, initiating staychain" ;;
    set_attestation NewAttestationDefault ;;
    inform.

(** Part of ASTATE_INIT: neither an unconfirmed nor an unspent is found. *)
Definition stateInitWalletFailure : M unit :=
  log "********** wallet failure" ;;
  set_state ASTATE_INIT.

(** ASTATE_INIT *)
Definition doStateInit (w : World) : M unit :=
  log "*AttestService* INITIATING ATTESTATION PROCESS" ;;
  let '(unconfirmed, unconfirmedTxid, unconfirmedErr) := getUnconfirmedTx w in
  emit ClientGetUnconfirmedTx ;;
  failed <- setFailure unconfirmedErr ;;
  if failed then ret tt
  else if unconfirmed then stateInitUnconfirmed w unconfirmedTxid
  else
    let '(success, unspent, unspentErr) := findLastUnspent w in
    emit ClientFindLastUnspent ;;
    failed <- setFailure unspentErr ;;
    if failed then ret tt
    else if success then stateInitUnspent w unspent
    else stateInitWalletFailure.

(** ASTATE_NEXT_COMMITMENT *)
Definition doStateNextCommitment (w : World) : M unit :=
  log "*AttestService* NEW ATTESTATION COMMITMENT" ;;
  let '(latestCommitment, latestErr) := GetClientCommitment w in
  emit ServerGetClientCommitment ;;
  failed <- setFailure latestErr ;;
  if failed then ret tt else
  let latestCommitmentHash := GetCommitmentHash latestCommitment in
  log "********** received commitment hash: %s\n" ;;
  a <- gets (fun m => attestation (svc m)) ;;
  if Hash_eqb latestCommitmentHash (CommitmentHash a) then
    log "********** Skipping attestation - Client commitment already attested" ;;
    atime <- gets (fun m => atimeNewAttestation (vars m)) ;;
    set_attestDelay atime
  else
    emit (SignerSendNewHash (CloneBytes latestCommitmentHash)) ;;
    set_attestation NewAttestationDefault ;;
    update_attestation (SetCommitment latestCommitment) ;;
    set_state ASTATE_NEW_ATTESTATION.

(** ASTATE_NEW_ATTESTATION *)
Definition doStateNewAttestation (w : World) : M unit :=
  log "*AttestService* NEW ATTESTATION" ;;
  a <- gets (fun m => attestation (svc m)) ;;
  let '(key, keyErr) := GetNextAttestationKey w (CommitmentHash a) in
  emit (ClientGetNextAttestationKey (CommitmentHash a)) ;;
  failed <- setFailure keyErr ;;
  if failed then ret tt else
  let '(paytoaddr, _) := GetNextAttestationAddr w key (CommitmentHash a) in
  emit (ClientGetNextAttestationAddr key (CommitmentHash a)) ;;
  (* paytoaddr.String() is a method call on the interface value *)
  _ <- deref paytoaddr ;;
  log "********** importing pay-to addr: %s ...\n" ;;
  let importErr := ImportAttestationAddr w paytoaddr in
  emit (ClientImportAttestationAddr paytoaddr) ;;
  failed <- setFailure importErr ;;
  if failed then ret tt else
  let '(success, unspent, unspentErr) := findLastUnspent w in
  emit ClientFindLastUnspent ;;
  failed <- setFailure unspentErr ;;
  if failed then ret tt
  else if success then
    let unspentList := [unspent] in
    let '(topupFound, topupUnspent, topupUnspentErr) := findTopupUnspent w in
    emit ClientFindTopupUnspent ;;
    failed <- setFailure topupUnspentErr ;;
    if failed then ret tt else
    let unspentList :=
      if topupFound then unspentList ++ [topupUnspent] else unspentList in
    let '(newTx, createErr) := createAttestation w paytoaddr unspentList in
    emit (ClientCreateAttestation paytoaddr unspentList) ;;
    failed <- setFailure createErr ;;
    if failed then ret tt else
    tx <- deref newTx ;;
    update_attestation (set_Tx tx) ;;
    log "********** pre-sign txid: %s\n" ;;
    emit (SignerSendNewTx (Serialize tx)) ;;
    set_state ASTATE_SIGN_ATTESTATION ;;
    set_attestDelay ATIME_SIGS
  else
    _ <- setFailure (Some ERROR_UNSPENT_NOT_FOUND) ;;
    ret tt.

(** ASTATE_SIGN_ATTESTATION *)
Definition doStateSignAttestation (w : World) : M unit :=
  log "*AttestService* SIGN ATTESTATION" ;;
  let sigs := GetSigs w in
  emit SignerGetSigs ;;
  log_each "********** received %d signatures for input %d \n" sigs ;;
  let '(lastCommitmentHash, latestErr) :=
    GetLatestAttestationCommitmentHash w [] in
  emit (ServerGetLatestAttestationCommitmentHash []) ;;
  failed <- setFailure latestErr ;;
  if failed then ret tt else
  a <- gets (fun m => attestation (svc m)) ;;
  let '(signedTx, signErr) := signAttestation w (Tx a) sigs lastCommitmentHash in
  emit (ClientSignAttestation (Tx a) sigs lastCommitmentHash) ;;
  failed <- setFailure signErr ;;
  if failed then ret tt else
  tx <- deref signedTx ;;
  update_attestation (set_Tx tx) ;;
  update_attestation (set_Txid (TxHash tx)) ;;
  set_state ASTATE_PRE_SEND_STORE.

(** ASTATE_PRE_SEND_STORE *)
Definition doStatePreSendStore (w : World) : M unit :=
  log "*AttestService* PRE SEND STORE" ;;
  a <- gets (fun m => attestation (svc m)) ;;
  let errUpdate := UpdateLatestAttestation w a in
  emit (ServerUpdateLatestAttestation a errUpdate) ;;
  failed <- setFailure errUpdate ;;
  if failed then ret tt else
  set_state ASTATE_SEND_ATTESTATION.

(** ASTATE_SEND_ATTESTATION *)
Definition doStateSendAttestation (w : World) : M unit :=
  log "*AttestService* SEND ATTESTATION" ;;
  a <- gets (fun m => attestation (svc m)) ;;
  let '(txid, attestationErr) := sendAttestation w (Tx a) in
  emit (ClientSendAttestation (Tx a) (txid, attestationErr)) ;;
  failed <- setFailure attestationErr ;;
  if failed then ret tt else
  update_attestation (set_Txid txid) ;;
  log "********** attestation transaction committed with txid: (%s)\n" ;;
  set_state ASTATE_AWAIT_CONFIRMATION ;;
  set_attestDelay ATIME_CONFIRMATION ;;
  set_confirmTime (clock w 0).

(** ASTATE_AWAIT_CONFIRMATION *)
Definition doStateAwaitConfirmation (w : World) : M unit :=
  log "*AttestService* AWAITING CONFIRMATION \ntxid: (%s)\ncommitment: (%s)\n" ;;
  started <- gets (fun m => confirmTime (vars m)) ;;
  limit <- gets (fun m => atimeHandleUnconfirmed (vars m)) ;;
  if Since (clock w 0) started >? limit then
    set_state ASTATE_HANDLE_UNCONFIRMED
  else
    a <- gets (fun m => attestation (svc m)) ;;
    let '(newTx, err) := GetTransaction w (Txid a) in
    emit (WalletGetTransaction (Txid a)) ;;
    failed <- setFailure err ;;
    if failed then ret tt else
    (* newTx.BlockHash reads through newTx *)
    walletTx <- deref newTx ;;
    if negb (String.eqb (BlockHash walletTx) "") then
      log "********** attestation confirmed with txid: (%s)\n" ;;
      update_attestation (set_Confirmed true) ;;
      update_attestation (UpdateInfo walletTx) ;;
      a <- gets (fun m => attestation (svc m)) ;;
      let errUpdate := UpdateLatestAttestation w a in
      emit (ServerUpdateLatestAttestation a errUpdate) ;;
      failed <- setFailure errUpdate ;;
      if failed then ret tt else
      regtest <- gets (fun m => isRegtest (svc m)) ;;
      emit (FeesResetFee regtest) ;;
      emit (SignerSendConfirmedHash (CloneBytes (CommitmentHash a))) ;;
      set_state ASTATE_NEXT_COMMITMENT ;;
      atime <- gets (fun m => atimeNewAttestation (vars m)) ;;
      set_attestDelay (Duration_sub atime (Since (clock w 1) started))
    else
      set_attestDelay ATIME_CONFIRMATION.

(** ASTATE_HANDLE_UNCONFIRMED *)
Definition doStateHandleUnconfirmed (w : World) : M unit :=
  log "*AttestService* HANDLE UNCONFIRMED" ;;
  log "********** bumping fees for attestation txid: %s\n" ;;
  a <- gets (fun m => attestation (svc m)) ;;
  (* currentTx := &s.attestation.Tx: the client rewrites s.attestation.Tx *)
  let '(bumped, bumpErr) := bumpAttestationFees w (Tx a) in
  emit (ClientBumpAttestationFees (Tx a)) ;;
  update_attestation (set_Tx bumped) ;;
  failed <- setFailure bumpErr ;;
  if failed then ret tt else
  log "********** new pre-sign txid: %s\n" ;;
  emit (SignerSendNewTx (Serialize bumped)) ;;
  set_state ASTATE_SIGN_ATTESTATION ;;
  set_attestDelay ATIME_SIGS.

(** [doAttestation]: one tick of the driver. *)
Definition doAttestation (w : World) : M unit :=
  set_attestDelay ATIME_FIXED ;;
  st <- gets (fun m => state (svc m)) ;;
  match st with
  | ASTATE_ERROR => doStateError
  | ASTATE_INIT => doStateInit w
  | ASTATE_NEXT_COMMITMENT => doStateNextCommitment w
  | ASTATE_NEW_ATTESTATION => doStateNewAttestation w
  | ASTATE_SIGN_ATTESTATION => doStateSignAttestation w
  | ASTATE_PRE_SEND_STORE => doStatePreSendStore w
  | ASTATE_SEND_ATTESTATION => doStateSendAttestation w
  | ASTATE_AWAIT_CONFIRMATION => doStateAwaitConfirmation w
  | ASTATE_HANDLE_UNCONFIRMED => doStateHandleUnconfirmed w
  end.

(** ** Construction *)

(** Package [config]: what [NewAttestService] reads of the configuration.
    The two timing values are Go [int]s. *)
Record TimingConfig := {
  NewAttestationMinutes : Z;
  HandleUnconfirmedMinutes : Z
}.

Record Config := {
  InitTx : string;
  Timing : TimingConfig;
  Regtest : bool
}.

(** The conversion [time.Duration(n)] of an [int]. *)
Definition Duration_of_int (n : Z) : Duration := wrap64 n.

(** The zero [time.Time] (January 1 of year 1), counted from the Unix
    epoch. *)
Definition zeroTime : Time := -62135596800 * Second.

(** [log.Fatalf] prints and then ends the process with status 1: there is
    no service in that case.  The events are in the order they happen. *)
Inductive Startup :=
| Aborted (events : list Event)
| Started (m : Machine).

(** [NewAttestService] *)
Definition NewAttestService (config : Config) : Startup :=
  let '(_, errInitTx) := NewHashFromStr (InitTx config) in
  match errInitTx with
  | Some _ => Aborted [Log "Incorrect initial transaction id %s\n"; Exit 1]
  | None =>
      let newMinutes := NewAttestationMinutes (Timing config) in
      let '(atimeNew, warnNew) :=
        if newMinutes >? 0
        then (Duration_mul (Duration_of_int newMinutes) Minute, [])
        else (DEFAULT_ATIME_NEW_ATTESTATION,
              [Log WARNING_INVALID_ATIME_NEW_ATTESTATION_ARG]) in
      let unconfirmedMinutes := HandleUnconfirmedMinutes (Timing config) in
      let '(atimeUnconfirmed, warnUnconfirmed) :=
        if unconfirmedMinutes >? 0
        then (Duration_mul (Duration_of_int unconfirmedMinutes) Minute, [])
        else (DEFAULT_ATIME_HANDLE_UNCONFIRMED,
              [Log WARNING_INVALID_ATIME_HANDLE_UNCONFIRMED_ARG]) in
      Started
        {| svc := {| state := ASTATE_INIT;
                     attestation := NewAttestationDefault;
                     errorState := None;
                     isRegtest := Regtest config |};
           vars := {| atimeNewAttestation := atimeNew;
                      atimeHandleUnconfirmed := atimeUnconfirmed;
                      attestDelay := 0;
                      confirmTime := zeroTime |};
           trace := rev (warnNew
                         ++ [Log "Time new attestation set to: %v\n"]
                         ++ warnUnconfirmed
                         ++ [Log "Time handle unconfirmed set to: %v\n"]) |}
  end.

(** ** The loop *)

(** What the [select] of one pass of the loop receives: the cancellation of
    the context, or the timer, after which the collaborators answer the
    tick as the [World] says. *)
Inductive Signal :=
| CtxDone
| TimerFired (w : World).

(** One pass of the [for] loop of [Run]; the result tells whether the loop
    goes on. *)
Definition RunIteration (sig : Signal) : M bool :=
  d <- gets (fun m => attestDelay (vars m)) ;;
  emit (NewTimer d) ;;
  match sig with
  | CtxDone =>
      log "Shutting down Attestation Service..." ;;
      ret false
  | TimerFired w =>
      doAttestation w ;;
      regtest <- gets (fun m => isRegtest (svc m)) ;;
      (if regtest then set_attestDelay (10 * Second) else ret tt) ;;
      log "********** sleeping for: %s ...\n" ;;
      ret true
  end.

(** The loop over the signals of a finite prefix of the execution; [true]
    when the loop is still running at the end of the prefix. *)
Fixpoint RunLoop (sigs : list Signal) : M bool :=
  match sigs with
  | [] => ret true
  | sig :: rest =>
      goOn <- RunIteration sig ;;
      if goOn then RunLoop rest else ret false
  end.

(** [Run]; the deferred [s.wg.Done()] runs when [Run] returns and when it
    panics. *)
Definition Run (sigs : list Signal) : M unit :=
  fun m =>
    match (set_attestDelay (30 * Second) ;; RunLoop sigs) m with
    | Ok true m' => Ok tt m'
    | Ok false m' => emit WgDone m'
    | Panic m' => Panic (machine_of (emit WgDone m'))
    end.

(** The process: construction, then the loop if there is a service. *)
Definition Process (config : Config) (sigs : list Signal) : option (Result unit) :=
  match NewAttestService config with
  | Aborted _ => None
  | Started m => Some (Run sigs m)
  end.

End Handlers.


(** * A concrete library and concrete worlds

    Used to run the model.  The parser of hashes follows
    [chainhash.NewHashFromStr] (at most 64 hexadecimal digits, an odd number
    of them padded with a leading zero, the bytes reversed and padded to 32).
    The serialisation and the transaction hash are stand-ins for the wire
    encoding and its double SHA-256, which are not modelled. *)

Definition hexDigit (c : Ascii.ascii) : option N :=
  let n := Ascii.N_of_ascii c in
  if ((48 <=? n) && (n <=? 57))%N then Some (n - 48)%N
  else if ((97 <=? n) && (n <=? 102))%N then Some (n - 87)%N
  else if ((65 <=? n) && (n <=? 70))%N then Some (n - 55)%N
  else None.

Fixpoint hexDecode (cs : list Ascii.ascii) : option (list byte) :=
  match cs with
  | [] => Some []
  | hi :: lo :: rest =>
      match hexDigit hi, hexDigit lo, hexDecode rest with
      | Some h, Some l, Some bs =>
          match Byte.of_N (16 * h + l) with
          | Some b => Some (b :: bs)
          | None => None
          end
      | _, _, _ => None
      end
  | [_] => None
  end.

Definition hexNewHashFromStr (s : string) : option Hash * error :=
  if (64 <? N.of_nat (String.length s))%N
  then (None, Some "max hash string length is 64 bytes")
  else
    let cs := list_ascii_of_string s in
    let cs := if Nat.even (List.length cs) then cs else Ascii.ascii_of_nat 48 :: cs in
    match hexDecode cs with
    | Some bs =>
        (Some (rev (repeat x00 (32 - List.length bs) ++ bs)), None)
    | None => (None, Some "encoding/hex: invalid byte")
    end.

Definition scriptBytes (tx : MsgTx) : list byte :=
  List.concat (map SignatureScript (TxIns tx))
  ++ List.concat (map PkScript (TxOuts tx)).

Definition sampleLib : BtcLib := {|
  TxHash := fun tx => firstn 32 (scriptBytes tx ++ zeroHash);
  Serialize := scriptBytes;
  NewHashFromStr := hexNewHashFromStr
|}.

(** The txid of the configuration test and a second one. *)
Definition sampleInitTx : string :=
  "87e56bda501ba6a022f12e178e9f1ac03fb2c07f04e1dfa62ac9e1d83cd840e1".

Definition sampleTxid : Hash := repeat x01 32.

Definition sampleCommitment : Commitment :=
  {| root := repeat x02 32; leaves := [repeat x02 32] |}.

Definition sampleUnspent : ListUnspentResult :=
  {| TxID := sampleInitTx; Vout := 0; ScriptPubKey := "" |}.

Definition sampleTx : MsgTx :=
  {| Version := 2;
     TxIns := [{| PreviousOutPoint :=
                    {| OutPointHash := repeat x01 32; OutPointIndex := 0 |};
                  SignatureScript := []; Witness := []; Sequence := 0 |}];
     TxOuts := [{| Value := 5000; PkScript := [x51] |}];
     LockTime := 0 |}.

Definition minedTx : GetTransactionResult :=
  {| BlockHash := "00ab"; BlockTime := 1546300800 |}.

Definition pendingTx : GetTransactionResult :=
  {| BlockHash := ""; BlockTime := 0 |}.

(** A world in which every collaborator succeeds, but for the answers given
    as arguments. *)
Definition sampleWorld
    (unconfirmed : bool * Hash * error)
    (importErr : error)
    (clientCommitment : Commitment * error)
    (updateErr : error)
    (rawTx : option MsgTx * error)
    (walletTx : option GetTransactionResult * error)
    (now : nat -> Time) : World :=
  {| getUnconfirmedTx := unconfirmed;
     findLastUnspent := (true, sampleUnspent, None);
     findTopupUnspent := (false, sampleUnspent, None);
     GetNextAttestationKey := fun _ => (Some "key", None);
     GetNextAttestationAddr := fun _ _ => (Some "addr", None);
     ImportAttestationAddr := fun _ => importErr;
     createAttestation := fun _ _ => (Some sampleTx, None);
     signAttestation := fun tx _ _ => (Some tx, None);
     sendAttestation := fun tx => (sampleTxid, None);
     bumpAttestationFees := fun tx => (tx, None);
     GetAttestationCommitment := fun _ _ => (sampleCommitment, None);
     GetClientCommitment := clientCommitment;
     GetLatestAttestationCommitmentHash := fun _ => (zeroHash, None);
     UpdateLatestAttestation := fun _ => updateErr;
     GetRawTransaction := fun _ => rawTx;
     GetTransaction := fun _ => walletTx;
     GetSigs := [[[x01]]];
     clock := now |}.

Definition otherCommitment : Commitment :=
  {| root := repeat x03 32; leaves := [repeat x03 32] |}.

Definition quietWorld : World :=
  sampleWorld (false, zeroHash, None) None (sampleCommitment, None) None
    (Some sampleTx, None) (Some minedTx, None) (fun _ => 0).

Definition sampleConfig : Config :=
  {| InitTx := sampleInitTx;
     Timing := {| NewAttestationMinutes := 10; HandleUnconfirmedMinutes := 60 |};
     Regtest := true |}.

(** A driver in a given state, holding a given attestation. *)
Definition sampleMachine (st : AttestationState) (a : Attestation)
    (started : Time) : Machine :=
  {| svc := {| state := st; attestation := a; errorState := None;
               isRegtest := false |};
     vars := {| atimeNewAttestation := 60 * Minute;
                atimeHandleUnconfirmed := 60 * Minute;
                attestDelay := ATIME_FIXED;
                confirmTime := started |};
     trace := [] |}.

Definition sampleAttestation : Attestation :=
  {| Txid := sampleTxid; Tx := sampleTx; Confirmed := false;
     Info := AttestationInfo_zero; commitment := Some sampleCommitment |}.

(** The store has a new commitment to attest. *)
Definition freshWorld : World :=
  sampleWorld (false, zeroHash, None) None (otherCommitment, None) None
    (Some sampleTx, None) (Some minedTx, None) (fun _ => 0).

(** The wallet refuses to import the address. *)
Definition importFailsWorld : World :=
  sampleWorld (false, zeroHash, None) (Some "import failed")
    (sampleCommitment, None) None
    (Some sampleTx, None) (Some minedTx, None) (fun _ => 0).

(** The mempool cannot be read. *)
Definition mempoolFailsWorld : World :=
  sampleWorld (false, zeroHash, Some "mempool unavailable") None
    (sampleCommitment, None) None
    (Some sampleTx, None) (Some minedTx, None) (fun _ => 0).

(** An unconfirmed attestation is in the mempool and the wallet calls fail
    the way the RPC client fails: a nil result and an error. *)
Definition walletDownWorld : World :=
  sampleWorld (true, sampleTxid, None) None (sampleCommitment, None) None
    (None, Some "connection refused") (None, Some "connection refused")
    (fun _ => 0).

(** No unconfirmed attestation, an unspent with a stored commitment, and
    the wallet calls fail in the same way. *)
Definition walletDownUnspentWorld : World :=
  sampleWorld (false, zeroHash, None) None (sampleCommitment, None) None
    (None, Some "connection refused") (None, Some "connection refused")
    (fun _ => 0).

(** An unconfirmed attestation is in the mempool; the wallet hands back the
    transaction together with an error. *)
Definition walletNoisyWorld : World :=
  sampleWorld (true, sampleTxid, None) None (sampleCommitment, None) None
    (Some sampleTx, Some "partial answer") (Some minedTx, None)
    (fun _ => 0).

(** The attestation is still in the mempool, a minute after it was sent. *)
Definition pendingWorld : World :=
  sampleWorld (false, zeroHash, None) None (sampleCommitment, None) None
    (Some sampleTx, None) (Some pendingTx, None) (fun _ => 1 * Minute).

(** The attestation is still in the mempool 61 minutes after it was sent. *)
Definition lateWorld : World :=
  sampleWorld (false, zeroHash, None) None (sampleCommitment, None) None
    (Some sampleTx, None) (Some pendingTx, None) (fun _ => 61 * Minute).

Definition regtestMachine : Machine :=
  {| svc := {| state := ASTATE_NEXT_COMMITMENT;
               attestation := sampleAttestation;
               errorState := None;
               isRegtest := true |};
     vars := {| atimeNewAttestation := 60 * Minute;
                atimeHandleUnconfirmed := 60 * Minute;
                attestDelay := 30 * Second;
                confirmTime := zeroTime |};
     trace := [] |}.

Definition longConfig : Config :=
  {| InitTx := sampleInitTx;
     Timing := {| NewAttestationMinutes := 153722868;
                  HandleUnconfirmedMinutes := 60 |};
     Regtest := false |}.

Definition badConfig : Config :=
  {| InitTx := "not-a-hash";
     Timing := {| NewAttestationMinutes := 10; HandleUnconfirmedMinutes := 60 |};
     Regtest := false |}.

(** Six ticks that take a fresh service from Init to the broadcast. *)
Definition sampleSigs : list Signal :=
  repeat (TimerFired freshWorld) 6.

(** The run of the process over [sampleSigs], and its history. *)
Definition sampleResult : Result unit :=
  match Process (lib := sampleLib) sampleConfig sampleSigs with
  | Some r => r
  | None => Panic (sampleMachine ASTATE_INIT NewAttestationDefault 0)
  end.

Definition sampleHistory : list Event := history (machine_of sampleResult).

(** The driver after the import of the address has failed. *)
Definition failedMachine : Machine :=
  machine_of
    (doAttestation (lib := sampleLib) importFailsWorld
       (sampleMachine ASTATE_NEW_ATTESTATION sampleAttestation 0)).

(** The regtest driver after one pass of the loop. *)
Definition regtestNext : Machine :=
  machine_of (RunIteration (lib := sampleLib) (TimerFired freshWorld) regtestMachine).

(** The process after a first tick in which the mempool cannot be read. *)
Definition mempoolFailedResult : Result unit :=
  match Process (lib := sampleLib) sampleConfig [TimerFired mempoolFailsWorld] with
  | Some r => r
  | None => Panic (sampleMachine ASTATE_INIT NewAttestationDefault 0)
  end.

(** * Notions used in the statements *)

Section Notions.

Context {lib : BtcLib}.

(** The transitions of the driver: the states one tick can lead to. *)
Definition next_states (st : AttestationState) : list AttestationState :=
  match st with
  | ASTATE_ERROR => [ASTATE_INIT]
  | ASTATE_INIT =>
      [ASTATE_ERROR; ASTATE_INIT; ASTATE_AWAIT_CONFIRMATION;
       ASTATE_NEXT_COMMITMENT]
  | ASTATE_NEXT_COMMITMENT =>
      [ASTATE_ERROR; ASTATE_NEXT_COMMITMENT; ASTATE_NEW_ATTESTATION]
  | ASTATE_NEW_ATTESTATION => [ASTATE_ERROR; ASTATE_SIGN_ATTESTATION]
  | ASTATE_SIGN_ATTESTATION => [ASTATE_ERROR; ASTATE_PRE_SEND_STORE]
  | ASTATE_PRE_SEND_STORE => [ASTATE_ERROR; ASTATE_SEND_ATTESTATION]
  | ASTATE_SEND_ATTESTATION => [ASTATE_ERROR; ASTATE_AWAIT_CONFIRMATION]
  | ASTATE_AWAIT_CONFIRMATION =>
      [ASTATE_ERROR; ASTATE_AWAIT_CONFIRMATION; ASTATE_HANDLE_UNCONFIRMED;
       ASTATE_NEXT_COMMITMENT]
  | ASTATE_HANDLE_UNCONFIRMED => [ASTATE_ERROR; ASTATE_SIGN_ATTESTATION]
  end.

(** The states in which an attestation transaction is being built, sent or
    awaited. *)
Definition in_flight (st : AttestationState) : bool :=
  match st with
  | ASTATE_ERROR | ASTATE_INIT | ASTATE_NEXT_COMMITMENT => false
  | _ => true
  end.

(** Over a trace, latest event first: every broadcast has, among the older
    events, a successful store update of an unconfirmed attestation that
    carries the broadcast transaction. *)
Fixpoint ordered (tr : list Event) : Prop :=
  match tr with
  | [] => True
  | ClientSendAttestation tx _ :: older =>
      (exists a, In (ServerUpdateLatestAttestation a None) older
                 /\ Tx a = tx /\ Confirmed a = false)
      /\ ordered older
  | _ :: older => ordered older
  end.

(** The invariant of the driver. *)
Definition Inv (m : Machine) : Prop :=
  (in_flight (state (svc m)) = true ->
   Confirmed (attestation (svc m)) = false)
  /\ (state (svc m) = ASTATE_SEND_ATTESTATION ->
      In (ServerUpdateLatestAttestation (attestation (svc m)) None) (trace m))
  /\ (state (svc m) = ASTATE_ERROR -> errorState (svc m) <> None)
  /\ ordered (trace m).

(** Events that are not a broadcast. *)
Definition quiet (e : Event) : Prop :=
  match e with
  | ClientSendAttestation _ _ => False
  | _ => True
  end.

(** The states the driver goes through, tick after tick, until the worlds
    are exhausted or a tick panics. *)
Fixpoint visited (ws : list World) (m : Machine) : list AttestationState :=
  state (svc m) ::
  match ws with
  | [] => []
  | w :: rest =>
      match doAttestation w m with
      | Ok _ m' => visited rest m'
      | Panic _ => []
      end
  end.

(** The trace only grows, at its head. *)
Definition extends (tr tr' : list Event) : Prop := exists evs, tr' = evs ++ tr.

(** The largest number of minutes whose nanoseconds fit a [Duration]. *)
Definition maxMinutes : Z := 153722867.

End Notions.

(** * The Mongo store: package [server]

    The functions of [DbMongo] that save an attestation and its commitment.
    Every document is written with [FindOneAndUpdate] and the upsert
    option, and the result is decoded; what the database answers to the
    [k]-th of these calls is [answers k], and the calls and the lines
    printed are recorded in order. *)

Definition COL_NAME_ATTESTATION := "Attestation".
Definition COL_NAME_COMMITMENT := "MerkleCommitment".
Definition COL_NAME_PROOF := "MerkleProof".
Definition COL_NAME_LATEST_COMMITMENT := "LatestCommitment".

(** The BSON values the store builds. *)
#[warnings="-register-all"]
Inductive BsonValue :=
| BString (s : string)
| BInt32 (n : Z)
| BDateTime (ms : Z)
| BBoolean (b : bool)
| BSubDocument (elems : list (string * BsonValue))
| BInterface (doc : option (list (string * BsonValue))).

Definition Document := list (string * BsonValue).

(** [bson.EC.SubDocumentFromElements("$set", elem)] *)
Definition set_element (key : string) (v : BsonValue) : string * BsonValue :=
  ("$set", BSubDocument [(key, v)]).

(** An error of the store: [mongo.ErrNoDocuments], which the code tells
    apart, or another error. *)
Inductive DbError :=
| ErrNoDocuments
| OtherError (msg : string).

(** A Go [error] in this package. *)
Definition dberror := option DbError.

(** [resErr != nil && resErr != mongo.ErrNoDocuments] *)
Definition is_failure (resErr : dberror) : bool :=
  match resErr with
  | None => false
  | Some ErrNoDocuments => false
  | Some (OtherError _) => true
  end.

(** Wrap-around of the conversion [int32(pos)]. *)
Definition wrap32 (z : Z) : Z := (z + 2 ^ 31) mod 2 ^ 32 - 2 ^ 31.

Inductive DbEvent :=
| DbFindOneAndUpdate (collection : string) (filter update : Document)
| DbPrintf (format : string).

(** The calls and printed lines so far, in order, and the number of calls
    the database has answered. *)
Record DbState := {
  issued : list DbEvent;
  answered : nat
}.

Definition DbM (A : Type) := DbState -> A * DbState.

Definition dbret {A} (a : A) : DbM A := fun s => (a, s).

Definition dbbind {A B} (c : DbM A) (k : A -> DbM B) : DbM B :=
  fun s => let '(a, s') := c s in k a s'.

Declare Scope db_scope.
Delimit Scope db_scope with db.
Notation "x <- c ;; k" := (dbbind c (fun x => k))
  (at level 61, c at next level, right associativity) : db_scope.
Notation "c ;; k" := (dbbind c (fun _ => k))
  (at level 61, right associativity) : db_scope.

Definition dbprintf (format : string) : DbM unit :=
  fun s => (tt, {| issued := issued s ++ [DbPrintf format];
                   answered := answered s |}).

Section Store.

(** [chainhash.Hash.String] *)
Variable HashString : Hash -> string.

(** [models.CommitmentMerkleProof], with [bson.Marshal] on it and
    [bson.ReadDocument] on the bytes; [Commitment.GetMerkleCommitments] and
    [Commitment.GetMerkleProofs], which are not among the sources. *)
Variable CommitmentMerkleProof : Type.
Variable Marshal : CommitmentMerkleProof -> list byte * dberror.
Variable ReadDocument : list byte -> option Document * dberror.
Variable GetMerkleCommitments : Commitment -> list Hash.
Variable GetMerkleProofs : Commitment -> list CommitmentMerkleProof.

(** The answers of the database, call after call. *)
Variable answers : nat -> dberror.

(** [d.db.Collection(c).FindOneAndUpdate(d.ctx, filter, update,
    findopt.Upsert(true))] followed by [res.Decode(t)]. *)
Definition findOneAndUpdate (collection : string) (filter update : Document)
    : DbM dberror :=
  fun s => (answers (answered s),
            {| issued := issued s ++ [DbFindOneAndUpdate collection filter update];
               answered := S (answered s) |}).

Local Open Scope db_scope.

(** [saveAttestation]; [now] is [time.Now().Unix()]. *)
Definition saveAttestation (now : Z) (attestation : Attestation)
    (confirmed : bool) : DbM dberror :=
  let newAttestation :=
    [set_element "txid" (BString (HashString (Txid attestation)));
     set_element "merkle_root"
       (BString (HashString (CommitmentHash attestation)));
     set_element "inserted_at" (BDateTime (wrap64 (wrap64 now * 1000)));
     set_element "confirmed" (BBoolean confirmed)] in
  let filterAttestation :=
    [("txid", BString (HashString (Txid attestation)));
     ("merkle_root", BString (HashString (CommitmentHash attestation)))] in
  resErr <- findOneAndUpdate COL_NAME_ATTESTATION filterAttestation
              newAttestation ;;
  if is_failure resErr then
    dbprintf "couldn't be created: %v\n" ;;
    dbret resErr
  else dbret None.

(** The document and the filter of one commitment. *)
Definition newMerkleCommitment (merkleRoot : Hash) (pos : Z) (c : Hash)
    : Document :=
  [set_element "merkle_root" (BString (HashString merkleRoot));
   set_element "client_position" (BInt32 (wrap32 pos));
   set_element "commitment" (BString (HashString c))].

Definition filterMerklePosition (merkleRoot : Hash) (pos : Z) : Document :=
  [("merkle_root", BString (HashString merkleRoot));
   ("client_position", BInt32 (wrap32 pos))].

(** The loop [for pos := range commitments] of [saveMerkleCommitments],
    from position [pos] on. *)
Fixpoint saveMerkleCommitments_from (merkleRoot : Hash) (pos : Z)
    (commitments : list Hash) : DbM dberror :=
  match commitments with
  | [] => dbret None
  | c :: rest =>
      resErr <- findOneAndUpdate "MerkleCommitment"
                  (filterMerklePosition merkleRoot pos)
                  (newMerkleCommitment merkleRoot pos c) ;;
      if is_failure resErr then
        dbprintf "couldn't be created: %v\n" ;;
        dbret resErr
      else saveMerkleCommitments_from merkleRoot (pos + 1) rest
  end.

(** [saveMerkleCommitments] *)
Definition saveMerkleCommitments (merkleRoot : Hash) (commitments : list Hash)
    : DbM dberror :=
  saveMerkleCommitments_from merkleRoot 0 commitments.

(** The document of one proof. *)
Definition newMerkleProof (merkleRoot : Hash) (pos : Z)
    (out : option Document) : Document :=
  [set_element "merkle_root" (BString (HashString merkleRoot));
   set_element "client_position" (BInt32 (wrap32 pos));
   set_element "proof" (BInterface out)].

(** The loop [for pos := range proofs] of [saveMerkleProofs]. *)
Fixpoint saveMerkleProofs_from (merkleRoot : Hash) (pos : Z)
    (proofs : list CommitmentMerkleProof) : DbM dberror :=
  match proofs with
  | [] => dbret None
  | p :: rest =>
      let '(el, marshalErr) := Marshal p in
      match marshalErr with
      | Some e => dbret (Some e)
      | None =>
          let '(out, docErr) := ReadDocument el in
          match docErr with
          | Some e => dbret (Some e)
          | None =>
              resErr <- findOneAndUpdate "MerkleProof"
                          (filterMerklePosition merkleRoot pos)
                          (newMerkleProof merkleRoot pos out) ;;
              if is_failure resErr then
                dbprintf "couldn't be created: %v\n" ;;
                dbret resErr
              else saveMerkleProofs_from merkleRoot (pos + 1) rest
          end
      end
  end.

(** [saveMerkleProofs] *)
Definition saveMerkleProofs (merkleRoot : Hash)
    (proofs : list CommitmentMerkleProof) : DbM dberror :=
  saveMerkleProofs_from merkleRoot 0 proofs.

(** [saveCommitment] *)
Definition saveCommitment (commitment : Commitment) : DbM dberror :=
  let merkleRoot := GetCommitmentHash commitment in
  let merkleCommitments := GetMerkleCommitments commitment in
  errSave <- saveMerkleCommitments merkleRoot merkleCommitments ;;
  match errSave with
  | Some e => dbret (Some e)
  | None =>
      let merkleProofs := GetMerkleProofs commitment in
      errSave <- saveMerkleProofs merkleRoot merkleProofs ;;
      match errSave with
      | Some e => dbret (Some e)
      | None => dbret None
      end
  end.

(** ** Notions used in the statements about the store *)

(** The upserts of the commitments [cs], the first at position [pos]. *)
Fixpoint commitment_upserts (merkleRoot : Hash) (pos : Z) (cs : list Hash)
    : list DbEvent :=
  match cs with
  | [] => []
  | c :: rest =>
      DbFindOneAndUpdate "MerkleCommitment"
        (filterMerklePosition merkleRoot pos)
        (newMerkleCommitment merkleRoot pos c)
      :: commitment_upserts merkleRoot (pos + 1) rest
  end.

(** An event that writes to the given collection. *)
Definition writes_to (collection : string) (e : DbEvent) : Prop :=
  match e with
  | DbFindOneAndUpdate c _ _ => c = collection
  | DbPrintf _ => False
  end.

End Store.

Arguments saveMerkleProofs_from HashString {CommitmentMerkleProof}.
Arguments saveMerkleProofs HashString {CommitmentMerkleProof}.
Arguments saveCommitment HashString {CommitmentMerkleProof}.

Definition emptyDb : DbState := {| issued := []; answered := 0 |}.

(** * Further notions: the loop, the schedule and the order of events *)

(** The events of the loop itself: log lines, timers and the wait group. *)
Definition loop_event (e : Event) : Prop :=
  match e with
  | Log _ | NewTimer _ | WgDone => True
  | _ => False
  end.

(** Over a trace, latest event first: every confirmed hash sent to the
    signers is the zero hash or the commitment root of a confirmed
    attestation that an older, successful store update has saved. *)
Fixpoint notified (tr : list Event) : Prop :=
  match tr with
  | [] => True
  | SignerSendConfirmedHash bytes :: older =>
      (bytes = CloneBytes zeroHash
       \/ exists a, In (ServerUpdateLatestAttestation a None) older
                    /\ Confirmed a = true
                    /\ CloneBytes (CommitmentHash a) = bytes)
      /\ notified older
  | _ :: older => notified older
  end.

(** A world in which the attest client finds neither an unconfirmed
    transaction nor an unspent, and reports no error. *)
Definition nothing_found (w : World) : Prop :=
  (exists h, getUnconfirmedTx w = (false, h, None))
  /\ (exists u, findLastUnspent w = (false, u, None)).

(** The Go convention for the calls whose error the driver checks: a nil
    result comes with a non-nil error. *)
Definition conventional (w : World) : Prop :=
  (forall h, fst (GetTransaction w h) = None ->
             snd (GetTransaction w h) <> None)
  /\ (forall addr us, fst (createAttestation w addr us) = None ->
                      snd (createAttestation w addr us) <> None)
  /\ (forall tx sigs h, fst (signAttestation w tx sigs h) = None ->
                        snd (signAttestation w tx sigs h) <> None).

(** A machine after events of the loop and a new delay. *)
Definition framed (m : Machine) (d : Duration) (evs : list Event) : Machine :=
  {| svc := svc m;
     vars := {| atimeNewAttestation := atimeNewAttestation (vars m);
                atimeHandleUnconfirmed := atimeHandleUnconfirmed (vars m);
                attestDelay := d;
                confirmTime := confirmTime (vars m) |};
     trace := evs ++ trace m |}.

Section MoreNotions.

Context {lib : BtcLib}.

(** Over a trace, latest event first: every transaction handed to
    [signAttestation] has been published to the signers before. *)
Fixpoint published (tr : list Event) : Prop :=
  match tr with
  | [] => True
  | ClientSignAttestation tx _ _ :: older =>
      In (SignerSendNewTx (Serialize tx)) older /\ published older
  | _ :: older => published older
  end.

(** The transaction awaiting signatures has been published. *)
Definition awaiting_published (m : Machine) : Prop :=
  (state (svc m) = ASTATE_SIGN_ATTESTATION ->
   In (SignerSendNewTx (Serialize (Tx (attestation (svc m))))) (trace m))
  /\ published (trace m).

End MoreNotions.

(** ** Further worlds and runs *)

(** The attest client finds neither an unconfirmed transaction nor an
    unspent. *)
Definition emptyWalletWorld : World :=
  {| getUnconfirmedTx := (false, zeroHash, None);
     findLastUnspent := (false, sampleUnspent, None);
     findTopupUnspent := findTopupUnspent quietWorld;
     GetNextAttestationKey := GetNextAttestationKey quietWorld;
     GetNextAttestationAddr := GetNextAttestationAddr quietWorld;
     ImportAttestationAddr := ImportAttestationAddr quietWorld;
     createAttestation := createAttestation quietWorld;
     signAttestation := signAttestation quietWorld;
     sendAttestation := sendAttestation quietWorld;
     bumpAttestationFees := bumpAttestationFees quietWorld;
     GetAttestationCommitment := GetAttestationCommitment quietWorld;
     GetClientCommitment := GetClientCommitment quietWorld;
     GetLatestAttestationCommitmentHash :=
       GetLatestAttestationCommitmentHash quietWorld;
     UpdateLatestAttestation := UpdateLatestAttestation quietWorld;
     GetRawTransaction := GetRawTransaction quietWorld;
     GetTransaction := GetTransaction quietWorld;
     GetSigs := GetSigs quietWorld;
     clock := clock quietWorld |}.

(** The run of the process over the first five ticks of [sampleSigs]: the
    attestation is signed and stored, not yet sent. *)
Definition signedResult : Result unit :=
  match Process (lib := sampleLib) sampleConfig
          (repeat (TimerFired freshWorld) 5) with
  | Some r => r
  | None => Panic (sampleMachine ASTATE_INIT NewAttestationDefault 0)
  end.

(** ** A concrete store *)

(** A stand-in for [chainhash.Hash.String]: the bytes in reverse order. *)
Definition sampleHashString (h : Hash) : string :=
  string_of_list_byte (rev h).

(** An empty database: every upsert is a first insert. *)
Definition firstInserts : nat -> dberror := fun _ => Some ErrNoDocuments.

(** A database that loses the connection at its second call. *)
Definition connectionLost : nat -> dberror :=
  fun k => if Nat.eqb k 1 then Some (OtherError "connection lost") else None.

Definition threeCommitments : list Hash :=
  [repeat x01 32; repeat x02 32; repeat x03 32].

(** * Properties *)

Lemma Hash_eqb_eq (a b : Hash) : Hash_eqb a b = true <-> a = b.
Proof.
  revert b; induction a as [|x a IH]; destruct b as [|y b]; cbn;
    try (split; [discriminate | discriminate]); try tauto.
  rewrite andb_true_iff, IH. split.
  - intros [Hx ->]. apply Byte.byte_dec_bl in Hx. congruence.
  - intro H; inversion H; subst. split; [apply Byte.byte_dec_lb|]; reflexivity.
Qed.

#[local] Arguments Z.gtb : simpl never.
#[local] Arguments Z.mul : simpl never.
#[local] Arguments Since : simpl never.
#[local] Arguments Duration_sub : simpl never.
#[local] Arguments Hash_eqb : simpl never.
#[local] Arguments String.eqb : simpl never.
#[local] Arguments doAttestation : simpl never.
#[local] Arguments RunIteration : simpl never.

(** ** Symbolic execution of the handlers *)

Ltac unfold_driver :=
  unfold doAttestation, doStateError, doStateInit, stateInitUnconfirmed,
    stateInitUnspent, stateInitWalletFailure, doStateNextCommitment,
    doStateNewAttestation, doStateSignAttestation, doStatePreSendStore,
    doStateSendAttestation, doStateAwaitConfirmation,
    doStateHandleUnconfirmed, setFailure, log, emit, set_state,
    set_attestation, update_attestation, set_errorState, set_attestDelay,
    set_confirmTime, deref, panic, gets, modify, bind, ret,
    with_svc, with_vars in *.

Ltac split_match :=
  match goal with
  | |- context [match ?x with _ => _ end] =>
      lazymatch x with
      | context [match _ with _ => _ end] => fail
      | _ => destruct x eqn:?
      end
  end.

Section Properties.

Context {lib : BtcLib}.

Lemma log_each_spec {A} (format : string) (xs : list A) (m : Machine) :
  log_each format xs m =
  Ok tt {| svc := svc m; vars := vars m;
           trace := repeat (Log format) (List.length xs) ++ trace m |}.
Proof.
  revert m; induction xs as [|x xs IH]; intro m.
  - destruct m; reflexivity.
  - cbn [log_each]. unfold bind, log, emit, modify. rewrite IH.
    cbn [svc vars trace List.length repeat].
    do 2 f_equal.
    rewrite (repeat_cons (List.length xs) (Log format)).
    rewrite <- app_assoc. reflexivity.
Qed.

Ltac exec :=
  unfold_driver; cbn;
  repeat (first [ rewrite log_each_spec | split_match ]; cbn).

Lemma doAttestation_next (w : World) (m m' : Machine) :
  doAttestation w m = Ok tt m' ->
  In (state (svc m')) (next_states (state (svc m))).
Proof.
  destruct m as [[st a e r] [an ah d ct] tr]; destruct st.
  all: exec.
  all: intro H; try discriminate.
  all: inversion H; subst; cbn.
  all: tauto.
Qed.

Lemma ordered_logs (format : string) (n : nat) (tr : list Event) :
  ordered tr -> ordered (repeat (Log format) n ++ tr).
Proof. induction n; cbn; auto. Qed.

Lemma doAttestation_Inv (w : World) (m : Machine) (r : Result unit) :
  Inv m -> doAttestation w m = r -> Inv (machine_of r).
Proof.
  unfold Inv.
  destruct m as [[st a e r0] [an ah d ct] tr]; destruct st; cbn;
    intros (H1 & H2 & H3 & H4).
  all: exec.
  all: intros <-; cbn.
  all: repeat split; intros; try discriminate; try congruence; auto.
  all: try (apply ordered_logs; assumption).
  all: exists a; cbn; auto.
Qed.

Lemma ordered_quiet (evs tr : list Event) :
  Forall quiet evs -> ordered tr -> ordered (evs ++ tr).
Proof.
  induction 1 as [|e evs He _ IH]; cbn; auto.
  intro Htr. destruct e; cbn in *; auto; contradiction.
Qed.

Lemma Inv_frame (m : Machine) (d : Duration) (evs : list Event) :
  Forall quiet evs ->
  Inv m ->
  Inv {| svc := svc m;
         vars := {| atimeNewAttestation := atimeNewAttestation (vars m);
                    atimeHandleUnconfirmed := atimeHandleUnconfirmed (vars m);
                    attestDelay := d;
                    confirmTime := confirmTime (vars m) |};
         trace := evs ++ trace m |}.
Proof.
  intros Hq (H1 & H2 & H3 & H4). unfold Inv; cbn. repeat split; auto.
  - intro Hs. apply in_or_app. right. auto.
  - apply ordered_quiet; assumption.
Qed.

Lemma Inv_emit (m : Machine) (e : Event) :
  quiet e -> Inv m -> Inv (machine_of (emit e m)).
Proof.
  intros Hq HI. destruct m as [s [an ah d ct] tr].
  apply (Inv_frame {| svc := s; vars := Build_Globals an ah d ct; trace := tr |}
                   d [e]); auto.
Qed.

Ltac frame m d evs :=
  let X := fresh in
  pose proof (Inv_frame m d evs) as X; cbn in X; apply X;
  [repeat constructor | assumption].

Lemma RunIteration_Inv (sig : Signal) (m : Machine) :
  Inv m -> Inv (machine_of (RunIteration sig m)).
Proof.
  intro HI. destruct m as [s [an ah d ct] tr].
  unfold RunIteration, set_attestDelay, with_vars, bind, gets, log, emit,
    modify, ret.
  cbn.
  destruct sig as [|w].
  - cbn.
    frame {| svc := s; vars := Build_Globals an ah d ct; trace := tr |}
          d [Log "Shutting down Attestation Service..."; NewTimer d].
  - match goal with
    | |- context [doAttestation w ?m0] =>
        assert (HI0 : Inv m0);
        [ frame {| svc := s; vars := Build_Globals an ah d ct; trace := tr |}
                d [NewTimer d]
        | pose proof (doAttestation_Inv w m0 _ HI0 eq_refl) as HI1;
          destruct (doAttestation w m0) as [[] m1|m1] ]
    end; cbn in *; [|exact HI1].
    destruct m1 as [s1 [an1 ah1 d1 ct1] tr1]; cbn.
    destruct (isRegtest s1); cbn.
    + frame {| svc := s1; vars := Build_Globals an1 ah1 d1 ct1; trace := tr1 |}
            (10 * Second) [Log "********** sleeping for: %s ...\n"].
    + frame {| svc := s1; vars := Build_Globals an1 ah1 d1 ct1; trace := tr1 |}
            d1 [Log "********** sleeping for: %s ...\n"].
Qed.

Lemma RunLoop_Inv (sigs : list Signal) (m : Machine) :
  Inv m -> Inv (machine_of (RunLoop sigs m)).
Proof.
  revert m; induction sigs as [|sig rest IH]; intros m HI; cbn.
  - exact HI.
  - unfold bind. pose proof (RunIteration_Inv sig m HI) as H1.
    destruct (RunIteration sig m) as [[] m1|m1]; cbn in *; auto.
Qed.

Lemma Run_Inv (sigs : list Signal) (m : Machine) :
  Inv m -> Inv (machine_of (Run sigs m)).
Proof.
  intro HI. unfold Run, bind.
  destruct m as [s [an ah d ct] tr].
  unfold set_attestDelay, modify, with_vars. cbn.
  match goal with
  | |- context [RunLoop sigs ?m0] =>
      assert (HI0 : Inv m0);
      [ frame {| svc := s; vars := Build_Globals an ah d ct; trace := tr |}
              (30 * Second) (@nil Event)
      | pose proof (RunLoop_Inv sigs m0 HI0) as HI1;
        destruct (RunLoop sigs m0) as [[] m1|m1] ]
  end; cbn in *; auto.
  - apply (Inv_emit m1 WgDone); cbn; auto.
  - apply (Inv_emit m1 WgDone); cbn; auto.
Qed.

Lemma NewAttestService_Inv (config : Config) (m : Machine) :
  NewAttestService config = Started m -> Inv m.
Proof.
  unfold NewAttestService.
  destruct (NewHashFromStr (InitTx config)) as [p [e|]]; [discriminate|].
  destruct (NewAttestationMinutes (Timing config) >? 0);
    destruct (HandleUnconfirmedMinutes (Timing config) >? 0);
    intro H; inversion H; subst; unfold Inv; cbn;
    repeat split; intros; try discriminate; auto.
Qed.

Lemma Process_Inv (config : Config) (sigs : list Signal) (r : Result unit) :
  Process config sigs = Some r -> Inv (machine_of r).
Proof.
  unfold Process.
  destruct (NewAttestService config) as [evs|m] eqn:E; [discriminate|].
  intro H; inversion H; subst. apply Run_Inv.
  apply (NewAttestService_Inv config); assumption.
Qed.

Lemma ordered_tail (e : Event) (tr : list Event) :
  ordered (e :: tr) -> ordered tr.
Proof. destruct e; cbn; tauto. Qed.

Lemma ordered_split (newer older : list Event) (tx : MsgTx) (res : Hash * error) :
  ordered (newer ++ ClientSendAttestation tx res :: older) ->
  exists a, In (ServerUpdateLatestAttestation a None) older
            /\ Tx a = tx /\ Confirmed a = false.
Proof.
  induction newer as [|e newer IH]; cbn [app].
  - cbn. tauto.
  - intro H. apply IH. exact (ordered_tail _ _ H).
Qed.

(** C1: in every execution of the process, each broadcast of a
    transaction by the attest client ([sendAttestation], called by the
    SendAttestation handler) comes strictly after a successful
    [UpdateLatestAttestation] of an attestation that carries this
    transaction and is not confirmed. *)
Theorem store_before_broadcast
    (config : Config) (sigs : list Signal) (r : Result unit)
    (pre post : list Event) (tx : MsgTx) (res : Hash * error) :
  Process config sigs = Some r ->
  history (machine_of r) = pre ++ ClientSendAttestation tx res :: post ->
  exists a, In (ServerUpdateLatestAttestation a None) pre
            /\ Tx a = tx /\ Confirmed a = false.
Proof.
  intros HP Hh. apply Process_Inv in HP. destruct HP as (_ & _ & _ & Ho).
  unfold history in Hh.
  assert (Ht : trace (machine_of r)
               = rev post ++ ClientSendAttestation tx res :: rev pre).
  { rewrite <- (rev_involutive (trace (machine_of r))), Hh.
    rewrite rev_app_distr. cbn. rewrite <- app_assoc. reflexivity. }
  rewrite Ht in Ho. apply ordered_split in Ho.
  destruct Ho as (a & Hin & Htx & Hc). exists a. split; [|auto].
  apply in_rev. exact Hin.
Qed.

(** C9: in every state the process reaches, an Error state comes with a
    non-nil [errorState]; [setFailure] with a non-nil error stores it, sets
    the Error state and returns true; with nil it returns false and changes
    nothing. *)
Theorem error_state_has_error :
  (forall (config : Config) (sigs : list Signal) (r : Result unit),
      Process config sigs = Some r ->
      state (svc (machine_of r)) = ASTATE_ERROR ->
      errorState (svc (machine_of r)) <> None)
  /\ (forall (e : string) (m : Machine),
         setFailure (Some e) m =
         Ok true {| svc := {| state := ASTATE_ERROR;
                              attestation := attestation (svc m);
                              errorState := Some e;
                              isRegtest := isRegtest (svc m) |};
                    vars := vars m; trace := trace m |})
  /\ (forall m : Machine, setFailure None m = Ok false m).
Proof.
  split; [|split].
  - intros config sigs r HP. apply Process_Inv in HP.
    destruct HP as (_ & _ & He & _). exact He.
  - intros e m. reflexivity.
  - intros m. reflexivity.
Qed.


(** ** One tick from the Error state *)

Lemma doAttestation_from_error (w : World) (m : Machine) :
  state (svc m) = ASTATE_ERROR ->
  doAttestation w m =
  Ok tt {| svc := {| state := ASTATE_INIT;
                     attestation := attestation (svc m);
                     errorState := errorState (svc m);
                     isRegtest := isRegtest (svc m) |};
           vars := {| atimeNewAttestation := atimeNewAttestation (vars m);
                      atimeHandleUnconfirmed := atimeHandleUnconfirmed (vars m);
                      attestDelay := ATIME_FIXED;
                      confirmTime := confirmTime (vars m) |};
           trace := Log "%v"
                    :: Log "*AttestService* ATTESTATION SERVICE FAILURE"
                    :: trace m |}.
Proof.
  destruct m as [[st a e r] [an ah d ct] tr]; cbn. intros ->. reflexivity.
Qed.

Lemma doAttestation_error_stored (w : World) (m m1 : Machine) :
  doAttestation w m = Ok tt m1 ->
  state (svc m1) = ASTATE_ERROR ->
  exists e, errorState (svc m1) = Some e.
Proof.
  destruct m as [[st a e r] [an ah d ct] tr]; destruct st.
  all: exec.
  all: intro H; try discriminate.
  all: inversion H; subst; cbn.
  all: intro Hs; try discriminate.
  all: eexists; reflexivity.
Qed.

(** The failure helper and the Error state: whatever the state and the
    error, [setFailure] stores the error and sets the Error state, and the
    tick that follows sets the state to Init; a tick that ends in the Error
    state has a stored error and is followed by a tick that ends in Init. *)
Theorem failure_returns_to_init :
  (forall (e : string) (m : Machine) (w : World),
      exists m1 m2,
        setFailure (Some e) m = Ok true m1
        /\ errorState (svc m1) = Some e
        /\ state (svc m1) = ASTATE_ERROR
        /\ doAttestation w m1 = Ok tt m2
        /\ state (svc m2) = ASTATE_INIT)
  /\ (forall (w w' : World) (m m1 : Machine),
         doAttestation w m = Ok tt m1 ->
         state (svc m1) = ASTATE_ERROR ->
         (exists e, errorState (svc m1) = Some e)
         /\ exists m2, doAttestation w' m1 = Ok tt m2
                       /\ state (svc m2) = ASTATE_INIT).
Proof.
  split.
  - intros e m w. eexists. eexists.
    split; [reflexivity|]. split; [reflexivity|]. split; [reflexivity|].
    split; [apply doAttestation_from_error; reflexivity | reflexivity].
  - intros w w' m m1 Htick Hs. split.
    + exact (doAttestation_error_stored w m m1 Htick Hs).
    + eexists. split; [apply doAttestation_from_error; exact Hs | reflexivity].
Qed.

(** ** Paths *)

Lemma visited_head (ws : list World) (m : Machine) :
  nth_error (visited ws m) 0 = Some (state (svc m)).
Proof. destruct ws; reflexivity. Qed.

Lemma visited_pred (ws : list World) (m : Machine) (j : nat)
    (st' : AttestationState) :
  nth_error (visited ws m) (S j) = Some st' ->
  exists st, nth_error (visited ws m) j = Some st /\ In st' (next_states st).
Proof.
  revert m j; induction ws as [|w rest IH]; intros m j.
  - cbn. destruct j; discriminate.
  - cbn [visited nth_error].
    destruct (doAttestation w m) as [[] m'|m'] eqn:E.
    + destruct j as [|j].
      * rewrite visited_head. intro H; inversion H; subst.
        exists (state (svc m)). split; [reflexivity|].
        apply (doAttestation_next w); exact E.
      * intro H. apply IH in H. destruct H as (st & Hst & Hin).
        exists st. split; [exact Hst | exact Hin].
    + destruct j; discriminate.
Qed.

Lemma before_send (st : AttestationState) :
  In ASTATE_SEND_ATTESTATION (next_states st) -> st = ASTATE_PRE_SEND_STORE.
Proof. destruct st; cbn; intuition discriminate. Qed.

Lemma before_pre_send (st : AttestationState) :
  In ASTATE_PRE_SEND_STORE (next_states st) -> st = ASTATE_SIGN_ATTESTATION.
Proof. destruct st; cbn; intuition discriminate. Qed.

(** C3: a tick from NewAttestation ends in SignAttestation or Error, one
    from SignAttestation in PreSendStore or Error, one from PreSendStore in
    SendAttestation or Error; and on every path of the driver, a
    SendAttestation state that comes after a NewAttestation state is at
    least three ticks later, the two states just before it being
    SignAttestation and PreSendStore. *)
Theorem no_shortcut_to_send :
  (forall (w : World) (m m' : Machine),
      doAttestation w m = Ok tt m' ->
      (state (svc m) = ASTATE_NEW_ATTESTATION ->
       state (svc m') = ASTATE_SIGN_ATTESTATION
       \/ state (svc m') = ASTATE_ERROR)
      /\ (state (svc m) = ASTATE_SIGN_ATTESTATION ->
          state (svc m') = ASTATE_PRE_SEND_STORE
          \/ state (svc m') = ASTATE_ERROR)
      /\ (state (svc m) = ASTATE_PRE_SEND_STORE ->
          state (svc m') = ASTATE_SEND_ATTESTATION
          \/ state (svc m') = ASTATE_ERROR))
  /\ (forall (ws : list World) (m : Machine) (i j : nat),
         (i < j)%nat ->
         nth_error (visited ws m) i = Some ASTATE_NEW_ATTESTATION ->
         nth_error (visited ws m) j = Some ASTATE_SEND_ATTESTATION ->
         (i + 3 <= j)%nat
         /\ nth_error (visited ws m) (j - 2) = Some ASTATE_SIGN_ATTESTATION
         /\ nth_error (visited ws m) (j - 1) = Some ASTATE_PRE_SEND_STORE).
Proof.
  split.
  - intros w m m' H. apply doAttestation_next in H.
    repeat split; intro Hs; rewrite Hs in H; cbn in H;
      intuition congruence.
  - intros ws m i j Hij Hi Hj.
    destruct j as [|j1]; [lia|].
    apply visited_pred in Hj. destruct Hj as (st1 & H1 & Hin1).
    apply before_send in Hin1. subst st1.
    assert (Hi1 : i <> j1) by (intros ->; congruence).
    destruct j1 as [|j2]; [lia|].
    apply visited_pred in H1 as H2. destruct H2 as (st2 & H2 & Hin2).
    apply before_pre_send in Hin2. subst st2.
    assert (Hi2 : i <> j2) by (intros ->; congruence).
    replace (S (S j2) - 2)%nat with j2 by lia.
    replace (S (S j2) - 1)%nat with (S j2) by lia.
    repeat split; [lia | exact H2 | exact H1].
Qed.

(** ** NextCommitment *)

(** C5: a NextCommitment tick that fetches the latest commitment.  When
    its root is the root of the current attestation, the service (state,
    attestation) is unchanged, nothing is sent to the signers and the delay
    is [atimeNewAttestation]; when the roots differ, the new hash is sent to
    the signers, the attestation becomes the default one bound to the new
    commitment (zero txid, empty transaction, not confirmed, and the
    fetched commitment as its commitment, so that its commitment root is the
    root fetched) and the state becomes NewAttestation. *)
Theorem next_commitment_tick
    (w : World) (m : Machine) (latest : Commitment) :
  state (svc m) = ASTATE_NEXT_COMMITMENT ->
  GetClientCommitment w = (latest, None) ->
  (GetCommitmentHash latest = CommitmentHash (attestation (svc m)) ->
   doAttestation w m =
   Ok tt {| svc := svc m;
            vars := {| atimeNewAttestation := atimeNewAttestation (vars m);
                       atimeHandleUnconfirmed := atimeHandleUnconfirmed (vars m);
                       attestDelay := atimeNewAttestation (vars m);
                       confirmTime := confirmTime (vars m) |};
            trace :=
              [Log "********** Skipping attestation - Client commitment already attested";
               Log "********** received commitment hash: %s\n";
               ServerGetClientCommitment;
               Log "*AttestService* NEW ATTESTATION COMMITMENT"] ++ trace m |})
  /\ (GetCommitmentHash latest <> CommitmentHash (attestation (svc m)) ->
      doAttestation w m =
      Ok tt {| svc := {| state := ASTATE_NEW_ATTESTATION;
                         attestation :=
                           {| Txid := zeroHash;
                              Tx := MsgTx_zero;
                              Confirmed := false;
                              Info := AttestationInfo_zero;
                              commitment := Some latest |};
                         errorState := errorState (svc m);
                         isRegtest := isRegtest (svc m) |};
               vars := {| atimeNewAttestation := atimeNewAttestation (vars m);
                          atimeHandleUnconfirmed := atimeHandleUnconfirmed (vars m);
                          attestDelay := ATIME_FIXED;
                          confirmTime := confirmTime (vars m) |};
               trace :=
                 [SignerSendNewHash (CloneBytes (GetCommitmentHash latest));
                  Log "********** received commitment hash: %s\n";
                  ServerGetClientCommitment;
                  Log "*AttestService* NEW ATTESTATION COMMITMENT"] ++ trace m |}).
Proof.
  destruct m as [[st a e r] [an ah d ct] tr]; cbn.
  intros -> Hw. split; intro Hroot.
  - apply Hash_eqb_eq in Hroot.
    unfold_driver; cbn. rewrite Hw; cbn. rewrite Hroot. reflexivity.
  - assert (Hb : Hash_eqb (GetCommitmentHash latest) (CommitmentHash a) = false).
    { destruct (Hash_eqb _ _) eqn:E; [|reflexivity].
      apply Hash_eqb_eq in E. contradiction. }
    unfold_driver; cbn. rewrite Hw; cbn. rewrite Hb. reflexivity.
Qed.

(** ** The loop in regtest *)

Lemma doAttestation_isRegtest (w : World) (m : Machine) (r : Result unit) :
  doAttestation w m = r ->
  isRegtest (svc (machine_of r)) = isRegtest (svc m).
Proof.
  destruct m as [[st a e r0] [an ah d ct] tr]; destruct st.
  all: exec.
  all: intros <-; reflexivity.
Qed.

Lemma extends_refl (tr : list Event) : extends tr tr.
Proof. exists []; reflexivity. Qed.

Lemma extends_cons (e : Event) (tr tr' : list Event) :
  extends tr tr' -> extends tr (e :: tr').
Proof. intros [evs ->]. exists (e :: evs); reflexivity. Qed.

Lemma extends_app (pre tr tr' : list Event) :
  extends tr tr' -> extends tr (pre ++ tr').
Proof. intros [evs ->]. exists (pre ++ evs). apply app_assoc. Qed.

Lemma doAttestation_extends (w : World) (m : Machine) (r : Result unit) :
  doAttestation w m = r -> extends (trace m) (trace (machine_of r)).
Proof.
  destruct m as [[st a e r0] [an ah d ct] tr]; destruct st.
  all: exec.
  all: intros <-; cbn.
  all: repeat first [apply extends_cons | apply extends_app];
    apply extends_refl.
Qed.

Lemma RunIteration_extends (sig : Signal) (m : Machine) :
  extends (NewTimer (attestDelay (vars m)) :: trace m)
          (trace (machine_of (RunIteration sig m))).
Proof.
  destruct m as [s [an ah d ct] tr].
  unfold RunIteration, set_attestDelay, with_vars, bind, gets, log, emit,
    modify, ret.
  cbn. destruct sig as [|w]; cbn.
  - apply extends_cons, extends_refl.
  - match goal with
    | |- context [doAttestation w ?m0] =>
        pose proof (doAttestation_extends w m0 _ eq_refl) as Hx;
        destruct (doAttestation w m0) as [[] m1|m1]
    end; cbn in *; [|exact Hx].
    destruct (isRegtest (svc m1)); cbn; apply extends_cons; exact Hx.
Qed.

(** C6: in regtest, when a pass of the loop has run its tick, the delay
    is 10 seconds, whatever the handler set, and the timer of the next pass
    is created with these 10 seconds. *)
Theorem regtest_forces_ten_seconds
    (w : World) (m m' : Machine) (goOn : bool) :
  isRegtest (svc m) = true ->
  RunIteration (TimerFired w) m = Ok goOn m' ->
  attestDelay (vars m') = 10 * Second
  /\ forall sig : Signal,
       exists evs,
         history (machine_of (RunIteration sig m'))
         = history m' ++ NewTimer (10 * Second) :: evs.
Proof.
  intros Hreg Hrun.
  assert (Hd : attestDelay (vars m') = 10 * Second).
  { destruct m as [s [an ah d ct] tr].
    unfold RunIteration, set_attestDelay, with_vars, bind, gets, log, emit,
      modify, ret in Hrun.
    cbn in Hrun.
    match type of Hrun with
    | context [doAttestation w ?m0] =>
        pose proof (doAttestation_isRegtest w m0 _ eq_refl) as Hr;
        destruct (doAttestation w m0) as [[] m1|m1]
    end; cbn in *; [|discriminate].
    rewrite Hreg in Hr. rewrite Hr in Hrun. cbn in Hrun.
    inversion Hrun; subst. reflexivity. }
  split; [exact Hd|].
  intro sig. destruct (RunIteration_extends sig m') as [evs Hevs].
  rewrite Hd in Hevs. exists (rev evs).
  unfold history. rewrite Hevs, rev_app_distr. cbn.
  rewrite <- app_assoc. reflexivity.
Qed.


(** ** AwaitConfirmation *)

Lemma wrap64_exact (z : Z) :
  minDuration <= z <= maxDuration -> wrap64 z = z.
Proof.
  unfold wrap64, minDuration, maxDuration. intro H.
  rewrite Z.mod_small; lia.
Qed.

Lemma Duration_sub_exact (a b : Duration) :
  minDuration <= a - b <= maxDuration -> Duration_sub a b = a - b.
Proof. apply wrap64_exact. Qed.

Lemma gtb_of_lt (a b : Z) : b < a -> (a >? b) = true.
Proof. intro H. rewrite Z.gtb_ltb. apply Z.ltb_lt. exact H. Qed.

Lemma gtb_of_le (a b : Z) : a <= b -> (a >? b) = false.
Proof. intro H. rewrite Z.gtb_ltb. apply Z.ltb_ge. exact H. Qed.

(** C4, as the driver has it.  In an AwaitConfirmation tick, with
    [elapsed] the time since [confirmTime]:
    - if [elapsed] exceeds [atimeHandleUnconfirmed], the state becomes
      HandleUnconfirmed and the wallet is not asked;
    - otherwise the wallet is asked for the transaction, and
      -- if the wallet call fails, the error is stored and the state becomes
         Error;
      -- if the wallet reports a non-empty block hash, the attestation is
         marked confirmed with the block metadata and handed to
         [UpdateLatestAttestation]; when that succeeds the fees are reset,
         the confirmed hash goes to the signers, the state becomes
         NextCommitment and the delay is [atimeNewAttestation] minus the
         time since [confirmTime], in [int64] nanoseconds; when it fails
         the error is stored and the state becomes Error;
      -- if the wallet reports an empty block hash, the service is
         unchanged and the delay is [ATIME_CONFIRMATION]. *)
Theorem await_confirmation_tick (w : World) (m : Machine) :
  state (svc m) = ASTATE_AWAIT_CONFIRMATION ->
  let a := attestation (svc m) in
  let g := vars m in
  let elapsed := Since (clock w 0) (confirmTime g) in
  let vars_with := fun d =>
    {| atimeNewAttestation := atimeNewAttestation g;
       atimeHandleUnconfirmed := atimeHandleUnconfirmed g;
       attestDelay := d;
       confirmTime := confirmTime g |} in
  let entered :=
    Log "*AttestService* AWAITING CONFIRMATION \ntxid: (%s)\ncommitment: (%s)\n"
    :: trace m in
  let asked := WalletGetTransaction (Txid a) :: entered in
  (atimeHandleUnconfirmed g < elapsed ->
   doAttestation w m =
   Ok tt {| svc := {| state := ASTATE_HANDLE_UNCONFIRMED;
                      attestation := a;
                      errorState := errorState (svc m);
                      isRegtest := isRegtest (svc m) |};
            vars := vars_with ATIME_FIXED;
            trace := entered |})
  /\ (elapsed <= atimeHandleUnconfirmed g ->
      (forall (p : option GetTransactionResult) (e : string),
          GetTransaction w (Txid a) = (p, Some e) ->
          doAttestation w m =
          Ok tt {| svc := {| state := ASTATE_ERROR;
                             attestation := a;
                             errorState := Some e;
                             isRegtest := isRegtest (svc m) |};
                   vars := vars_with ATIME_FIXED;
                   trace := asked |})
      /\ (forall t : GetTransactionResult,
             GetTransaction w (Txid a) = (Some t, None) ->
             BlockHash t <> "" ->
             let a' := UpdateInfo t (set_Confirmed true a) in
             let since := Since (clock w 1) (confirmTime g) in
             Confirmed a' = true
             /\ Blockhash (Info a') = BlockHash t
             /\ (UpdateLatestAttestation w a' = None ->
                 doAttestation w m =
                 Ok tt {| svc := {| state := ASTATE_NEXT_COMMITMENT;
                                    attestation := a';
                                    errorState := errorState (svc m);
                                    isRegtest := isRegtest (svc m) |};
                          vars := vars_with
                                    (Duration_sub (atimeNewAttestation g) since);
                          trace :=
                            SignerSendConfirmedHash (CloneBytes (CommitmentHash a))
                            :: FeesResetFee (isRegtest (svc m))
                            :: ServerUpdateLatestAttestation a' None
                            :: Log "********** attestation confirmed with txid: (%s)\n"
                            :: asked |})
             /\ (minDuration <= atimeNewAttestation g - since <= maxDuration ->
                 Duration_sub (atimeNewAttestation g) since
                 = atimeNewAttestation g - since)
             /\ (forall e : string,
                    UpdateLatestAttestation w a' = Some e ->
                    doAttestation w m =
                    Ok tt {| svc := {| state := ASTATE_ERROR;
                                       attestation := a';
                                       errorState := Some e;
                                       isRegtest := isRegtest (svc m) |};
                             vars := vars_with ATIME_FIXED;
                             trace :=
                               ServerUpdateLatestAttestation a' (Some e)
                               :: Log "********** attestation confirmed with txid: (%s)\n"
                               :: asked |}))
      /\ (forall t : GetTransactionResult,
             GetTransaction w (Txid a) = (Some t, None) ->
             BlockHash t = "" ->
             doAttestation w m =
             Ok tt {| svc := svc m;
                      vars := vars_with ATIME_CONFIRMATION;
                      trace := asked |})).
Proof.
  destruct m as [[st a e r] [an ah d ct] tr]; cbn.
  intros ->. split; [|intro Hle; split; [|split]].
  - intro Hlt. unfold_driver; cbn.
    rewrite (gtb_of_lt _ _ Hlt); cbn.
    reflexivity.
  - intros p e0 Hw. unfold_driver; cbn.
    rewrite (gtb_of_le _ _ Hle); cbn.
    rewrite Hw. reflexivity.
  - intros t Hw Hbh. split; [reflexivity|]. split; [reflexivity|].
    assert (Hb : String.eqb (BlockHash t) "" = false)
      by (apply String.eqb_neq; exact Hbh).
    split; [|split].
    + intro Hu. unfold_driver; cbn.
      rewrite (gtb_of_le _ _ Hle); cbn.
      rewrite Hw; cbn. rewrite Hb; cbn.
      rewrite Hu. reflexivity.
    + apply Duration_sub_exact.
    + intros e0 Hu. unfold_driver; cbn.
      rewrite (gtb_of_le _ _ Hle); cbn.
      rewrite Hw; cbn. rewrite Hb; cbn.
      rewrite Hu. reflexivity.
  - intros t Hw Hbh.
    assert (Hb : String.eqb (BlockHash t) "" = true)
      by (apply String.eqb_eq; exact Hbh).
    unfold_driver; cbn.
    rewrite (gtb_of_le _ _ Hle); cbn.
    rewrite Hw; cbn. rewrite Hb. reflexivity.
Qed.



(** ** Construction *)

Lemma maxMinutes_spec : maxMinutes = maxDuration / Minute.
Proof. reflexivity. Qed.

Lemma minutes_exact (n : Z) :
  0 < n <= maxMinutes ->
  Duration_mul (Duration_of_int n) Minute = n * Minute.
Proof.
  unfold Duration_mul, Duration_of_int, maxMinutes. intro H.
  rewrite (wrap64_exact n)
    by (unfold minDuration, maxDuration; lia).
  apply wrap64_exact.
  unfold minDuration, maxDuration, Minute, Second. lia.
Qed.

(** C7, as the driver has it.  When construction goes through: a
    [NewAttestationMinutes] of 0 or less leaves [atimeNewAttestation] at 60
    minutes and logs the warning; a value between 1 and [maxMinutes] makes
    it that many minutes, without warning; the same holds of
    [HandleUnconfirmedMinutes] and [atimeHandleUnconfirmed]. *)
Theorem timing_from_config (config : Config) (p : option Hash) :
  NewHashFromStr (InitTx config) = (p, None) ->
  exists m,
    NewAttestService config = Started m
    /\ (NewAttestationMinutes (Timing config) <= 0 ->
        atimeNewAttestation (vars m) = 60 * Minute
        /\ In (Log WARNING_INVALID_ATIME_NEW_ATTESTATION_ARG) (history m))
    /\ (0 < NewAttestationMinutes (Timing config) <= maxMinutes ->
        atimeNewAttestation (vars m)
        = NewAttestationMinutes (Timing config) * Minute
        /\ ~ In (Log WARNING_INVALID_ATIME_NEW_ATTESTATION_ARG) (history m))
    /\ (HandleUnconfirmedMinutes (Timing config) <= 0 ->
        atimeHandleUnconfirmed (vars m) = 60 * Minute
        /\ In (Log WARNING_INVALID_ATIME_HANDLE_UNCONFIRMED_ARG) (history m))
    /\ (0 < HandleUnconfirmedMinutes (Timing config) <= maxMinutes ->
        atimeHandleUnconfirmed (vars m)
        = HandleUnconfirmedMinutes (Timing config) * Minute
        /\ ~ In (Log WARNING_INVALID_ATIME_HANDLE_UNCONFIRMED_ARG) (history m)).
Proof.
  intro Hp. unfold NewAttestService. rewrite Hp.
  destruct (NewAttestationMinutes (Timing config) >? 0) eqn:En;
    destruct (HandleUnconfirmedMinutes (Timing config) >? 0) eqn:Eh;
    eexists; (split; [reflexivity|]); unfold history; cbn;
    rewrite ?Z.gtb_ltb, ?Z.ltb_lt, ?Z.ltb_ge in En, Eh.
  all: repeat split; intros; try lia.
  all: try (apply minutes_exact; assumption).
  all: try (intros [H'|[H'|[H'|H']]]; (discriminate || contradiction)).
  all: try (intros [H'|[H'|H']]; (discriminate || contradiction)).
  all: cbn; auto 6.
Qed.

(** C8: when the parser of hashes rejects [InitTx], construction ends
    the process with a fatal log line, and no pass of the loop runs whatever
    the signals; when it accepts [InitTx], construction builds a service in
    state Init with no error, which the loop then runs. *)
Theorem init_tx_checked (config : Config) :
  (forall (p : option Hash) (e : string),
      NewHashFromStr (InitTx config) = (p, Some e) ->
      NewAttestService config
      = Aborted [Log "Incorrect initial transaction id %s\n"; Exit 1]
      /\ forall sigs : list Signal, Process config sigs = None)
  /\ (forall p : option Hash,
         NewHashFromStr (InitTx config) = (p, None) ->
         exists m,
           NewAttestService config = Started m
           /\ state (svc m) = ASTATE_INIT
           /\ errorState (svc m) = None
           /\ forall sigs : list Signal,
                Process config sigs = Some (Run sigs m)).
Proof.
  split.
  - intros p e Hp. unfold Process, NewAttestService. rewrite Hp.
    split; reflexivity.
  - intros p Hp. unfold Process, NewAttestService. rewrite Hp.
    destruct (NewAttestationMinutes (Timing config) >? 0);
      destruct (HandleUnconfirmedMinutes (Timing config) >? 0);
      eexists; repeat split.
Qed.

(** ** The Init handlers and the wallet *)

(** In the two Init handlers the errors of [GetRawTransaction] and
    [GetTransaction] are dropped.  Whenever these calls hand back a
    transaction, with or without an error, the unconfirmed handler sets the
    transaction of the attestation and advances to AwaitConfirmation, and
    the unspent handler (for a stored commitment, once the store update
    succeeds) sets it and advances to NextCommitment.  A handler that ends
    in the Error state has stored an error of the store: of
    [GetAttestationCommitment] or of [UpdateLatestAttestation]. *)
Lemma init_wallet_errors_dropped :
  (forall (w : World) (txid : Hash) (m : Machine) (c : Commitment)
          (tx : MsgTx) (rawErr : error),
      GetAttestationCommitment w txid [false] = (c, None) ->
      GetRawTransaction w txid = (Some tx, rawErr) ->
      exists m',
        stateInitUnconfirmed w txid m = Ok tt m'
        /\ attestation (svc m') = set_Tx tx (NewAttestation txid (Some c))
        /\ state (svc m') = ASTATE_AWAIT_CONFIRMATION
        /\ errorState (svc m') = errorState (svc m)
        /\ confirmTime (vars m') = clock w 0)
  /\ (forall (w : World) (unspent : ListUnspentResult) (m : Machine)
             (txid : Hash) (parseErr : error) (c : Commitment)
             (tx : MsgTx) (t : GetTransactionResult) (rawErr getErr : error),
         NewHashFromStr (TxID unspent) = (Some txid, parseErr) ->
         GetAttestationCommitment w txid [] = (c, None) ->
         GetCommitmentHash c <> zeroHash ->
         GetRawTransaction w txid = (Some tx, rawErr) ->
         GetTransaction w txid = (Some t, getErr) ->
         let a := UpdateInfo t (set_Tx tx (set_Confirmed true
                                  (NewAttestation txid (Some c)))) in
         UpdateLatestAttestation w a = None ->
         exists m',
           stateInitUnspent w unspent m = Ok tt m'
           /\ attestation (svc m') = a
           /\ Tx (attestation (svc m')) = tx
           /\ state (svc m') = ASTATE_NEXT_COMMITMENT
           /\ errorState (svc m') = errorState (svc m))
  /\ (forall (w : World) (txid : Hash) (m m' : Machine),
         state (svc m) <> ASTATE_ERROR ->
         stateInitUnconfirmed w txid m = Ok tt m' ->
         state (svc m') = ASTATE_ERROR ->
         exists e,
           errorState (svc m') = Some e
           /\ snd (GetAttestationCommitment w txid [false]) = Some e)
  /\ (forall (w : World) (unspent : ListUnspentResult) (m m' : Machine),
         state (svc m) <> ASTATE_ERROR ->
         stateInitUnspent w unspent m = Ok tt m' ->
         state (svc m') = ASTATE_ERROR ->
         exists e,
           errorState (svc m') = Some e
           /\ ((exists txid, snd (GetAttestationCommitment w txid []) = Some e)
               \/ exists a, UpdateLatestAttestation w a = Some e)).
Proof.
  split; [|split; [|split]].
  - intros w txid m c tx rawErr Hc Hr.
    destruct m as [[st a e r] [an ah d ct] tr].
    unfold_driver; cbn. rewrite Hc; cbn. rewrite Hr; cbn.
    eexists. split; [reflexivity|]. cbn. repeat split.
  - intros w unspent m txid parseErr c tx t rawErr getErr Hp Hc Hz Hr Ht a Hu.
    destruct m as [[st a0 e r] [an ah d ct] tr].
    assert (Hb : Hash_eqb (GetCommitmentHash c) zeroHash = false).
    { destruct (Hash_eqb _ _) eqn:E; [|reflexivity].
      apply Hash_eqb_eq in E. contradiction. }
    unfold_driver; cbn. rewrite Hp; cbn. rewrite Hc; cbn.
    match goal with
    | |- context [Hash_eqb ?x ?y] =>
        replace (Hash_eqb x y) with false by (symmetry; exact Hb)
    end; cbn.
    rewrite Hr, Ht; cbn.
    subst a. rewrite Hu; cbn.
    eexists. split; [reflexivity|]. cbn. repeat split.
  - intros w txid m m' Hne.
    destruct m as [[st a e r] [an ah d ct] tr]; cbn in Hne.
    exec.
    all: intro H; try discriminate.
    all: inversion H; subst; cbn.
    all: intro Hs; try congruence.
    all: eexists; split; reflexivity.
  - intros w unspent m m' Hne.
    destruct m as [[st a e r] [an ah d ct] tr]; cbn in Hne.
    exec.
    all: intro H; try discriminate.
    all: inversion H; subst; cbn.
    all: intro Hs; try congruence.
    all: eexists; split; [reflexivity|].
    all: first [ left; eexists;
                 match goal with
                 | Hq : GetAttestationCommitment _ _ _ = _ |- _ =>
                     rewrite Hq; reflexivity
                 end
               | right; eexists; eassumption ].
Qed.

End Properties.

(** * The theorems at concrete inputs *)

(** ** C1 *)

Lemma store_before_broadcast_witness :
  exists a,
    In (ServerUpdateLatestAttestation a None) (firstn 44 sampleHistory)
    /\ Tx a = sampleTx /\ Confirmed a = false.
Proof.
  apply (store_before_broadcast (lib := sampleLib) sampleConfig sampleSigs
           sampleResult (firstn 44 sampleHistory) (skipn 45 sampleHistory)
           sampleTx (sampleTxid, None)).
  - vm_compute. reflexivity.
  - vm_compute. reflexivity.
Defined.

(** ** Scenario S4, the import of the address fails during
    NewAttestation. *)

Lemma failure_returns_to_init_witness :
  (exists e, errorState (svc failedMachine) = Some e)
  /\ exists m2,
       doAttestation (lib := sampleLib) quietWorld failedMachine = Ok tt m2
       /\ state (svc m2) = ASTATE_INIT.
Proof.
  apply (proj2 (failure_returns_to_init (lib := sampleLib))
           importFailsWorld quietWorld
           (sampleMachine ASTATE_NEW_ATTESTATION sampleAttestation 0)
           failedMachine).
  - vm_compute. reflexivity.
  - vm_compute. reflexivity.
Defined.

(** ** C3 *)

Lemma no_shortcut_to_send_witness :
  (0 + 3 <= 3)%nat
  /\ nth_error
       (visited (lib := sampleLib) [quietWorld; quietWorld; quietWorld]
          (sampleMachine ASTATE_NEW_ATTESTATION sampleAttestation 0))
       (3 - 2) = Some ASTATE_SIGN_ATTESTATION
  /\ nth_error
       (visited (lib := sampleLib) [quietWorld; quietWorld; quietWorld]
          (sampleMachine ASTATE_NEW_ATTESTATION sampleAttestation 0))
       (3 - 1) = Some ASTATE_PRE_SEND_STORE.
Proof.
  apply (proj2 (no_shortcut_to_send (lib := sampleLib))
           [quietWorld; quietWorld; quietWorld]
           (sampleMachine ASTATE_NEW_ATTESTATION sampleAttestation 0) 0%nat 3%nat).
  - lia.
  - vm_compute. reflexivity.
  - vm_compute. reflexivity.
Defined.

(** ** C4: scenario S2, the wallet reports the block of the attestation. *)

Lemma await_confirmation_tick_witness :
  exists m',
    doAttestation (lib := sampleLib) quietWorld
      (sampleMachine ASTATE_AWAIT_CONFIRMATION sampleAttestation 0) = Ok tt m'
    /\ state (svc m') = ASTATE_NEXT_COMMITMENT
    /\ Confirmed (attestation (svc m')) = true
    /\ attestDelay (vars m') = 60 * Minute.
Proof.
  pose proof (await_confirmation_tick (lib := sampleLib) quietWorld
                (sampleMachine ASTATE_AWAIT_CONFIRMATION sampleAttestation 0)
                eq_refl) as H.
  cbv zeta in H. destruct H as [_ H].
  assert (Hle : Since (clock quietWorld 0)
                  (confirmTime
                     (vars (sampleMachine ASTATE_AWAIT_CONFIRMATION
                              sampleAttestation 0)))
                <= atimeHandleUnconfirmed
                     (vars (sampleMachine ASTATE_AWAIT_CONFIRMATION
                              sampleAttestation 0)))
    by (vm_compute; discriminate).
  destruct (H Hle) as (_ & Hmined & _).
  assert (Hbh : BlockHash minedTx <> "") by discriminate.
  destruct (Hmined minedTx eq_refl Hbh) as (_ & _ & Hok & _).
  eexists. split; [exact (Hok eq_refl)|].
  vm_compute. repeat split.
Defined.

(** ** C5 *)

Lemma next_commitment_tick_witness :
  (exists m',
      doAttestation (lib := sampleLib) quietWorld
        (sampleMachine ASTATE_NEXT_COMMITMENT sampleAttestation 0) = Ok tt m'
      /\ svc m' = svc (sampleMachine ASTATE_NEXT_COMMITMENT sampleAttestation 0)
      /\ attestDelay (vars m') = 60 * Minute)
  /\ (exists m',
         doAttestation (lib := sampleLib) freshWorld
           (sampleMachine ASTATE_NEXT_COMMITMENT sampleAttestation 0) = Ok tt m'
         /\ state (svc m') = ASTATE_NEW_ATTESTATION
         /\ attestation (svc m')
            = {| Txid := zeroHash; Tx := MsgTx_zero; Confirmed := false;
                 Info := AttestationInfo_zero;
                 commitment := Some otherCommitment |}
         /\ CommitmentHash (attestation (svc m')) = repeat x03 32).
Proof.
  split.
  - eexists. split.
    + apply (proj1 (next_commitment_tick (lib := sampleLib) quietWorld
                      (sampleMachine ASTATE_NEXT_COMMITMENT sampleAttestation 0)
                      sampleCommitment eq_refl eq_refl)).
      reflexivity.
    + split; reflexivity.
  - eexists. split.
    + apply (proj2 (next_commitment_tick (lib := sampleLib) freshWorld
                      (sampleMachine ASTATE_NEXT_COMMITMENT sampleAttestation 0)
                      otherCommitment eq_refl eq_refl)).
      vm_compute. discriminate.
    + split; [reflexivity | split; reflexivity].
Defined.

(** ** C6 *)

Lemma regtest_forces_ten_seconds_witness :
  attestDelay (vars regtestNext) = 10 * Second
  /\ forall sig : Signal,
       exists evs,
         history (machine_of (RunIteration (lib := sampleLib) sig regtestNext))
         = history regtestNext ++ NewTimer (10 * Second) :: evs.
Proof.
  apply (regtest_forces_ten_seconds (lib := sampleLib) freshWorld
           regtestMachine regtestNext true).
  - reflexivity.
  - vm_compute. reflexivity.
Defined.

(** ** C7 *)

Lemma timing_from_config_witness :
  exists m,
    NewAttestService (lib := sampleLib) sampleConfig = Started m
    /\ atimeNewAttestation (vars m) = 10 * Minute
    /\ atimeHandleUnconfirmed (vars m) = 60 * Minute.
Proof.
  destruct (timing_from_config (lib := sampleLib) sampleConfig
              (fst (hexNewHashFromStr sampleInitTx)))
    as (m & Hm & _ & Hnew & _ & Hunc).
  - vm_compute. reflexivity.
  - exists m. split; [exact Hm|]. split.
    + apply Hnew. vm_compute. split; [reflexivity | discriminate].
    + apply Hunc. vm_compute. split; [reflexivity | discriminate].
Defined.

(** ** C8: scenario S6 *)

Lemma init_tx_checked_witness :
  NewAttestService (lib := sampleLib) badConfig
  = Aborted [Log "Incorrect initial transaction id %s\n"; Exit 1]
  /\ forall sigs : list Signal, Process (lib := sampleLib) badConfig sigs = None.
Proof.
  apply (proj1 (init_tx_checked (lib := sampleLib) badConfig)
           None "encoding/hex: invalid byte").
  vm_compute. reflexivity.
Defined.

(** ** C9 *)

Lemma error_state_has_error_witness :
  errorState (svc (machine_of mempoolFailedResult)) <> None.
Proof.
  apply (proj1 (error_state_has_error (lib := sampleLib))
           sampleConfig [TimerFired mempoolFailsWorld] mempoolFailedResult).
  - vm_compute. reflexivity.
  - vm_compute. reflexivity.
Defined.

(** ** The Init handlers when the wallet answers with a transaction and an
    error *)

Lemma init_wallet_errors_dropped_witness :
  exists m',
    stateInitUnconfirmed walletNoisyWorld sampleTxid
      (sampleMachine ASTATE_INIT NewAttestationDefault 0) = Ok tt m'
    /\ attestation (svc m')
       = set_Tx sampleTx (NewAttestation sampleTxid (Some sampleCommitment))
    /\ state (svc m') = ASTATE_AWAIT_CONFIRMATION
    /\ errorState (svc m') = None
    /\ confirmTime (vars m') = 0.
Proof.
  apply (proj1 (init_wallet_errors_dropped (lib := sampleLib))
           walletNoisyWorld sampleTxid
           (sampleMachine ASTATE_INIT NewAttestationDefault 0)
           sampleCommitment sampleTx (Some "partial answer")).
  - reflexivity.
  - reflexivity.
Defined.

(** * Where the specification and the driver part *)

(** C4 as the specification words it fails when the wallet call fails: the
    time limit is not exceeded and the wallet reports no block hash, yet the
    state changes (to Error) and the delay is not [ATIME_CONFIRMATION]. *)
Lemma await_confirmation_wallet_failure :
  state (svc (sampleMachine ASTATE_AWAIT_CONFIRMATION sampleAttestation 0))
  = ASTATE_AWAIT_CONFIRMATION
  /\ Since (clock walletDownWorld 0)
       (confirmTime
          (vars (sampleMachine ASTATE_AWAIT_CONFIRMATION sampleAttestation 0)))
     <= atimeHandleUnconfirmed
          (vars (sampleMachine ASTATE_AWAIT_CONFIRMATION sampleAttestation 0))
  /\ (forall t : GetTransactionResult,
         GetTransaction walletDownWorld (Txid sampleAttestation)
         <> (Some t, None))
  /\ exists m',
       doAttestation (lib := sampleLib) walletDownWorld
         (sampleMachine ASTATE_AWAIT_CONFIRMATION sampleAttestation 0)
       = Ok tt m'
       /\ state (svc m') = ASTATE_ERROR
       /\ state (svc m') <> ASTATE_AWAIT_CONFIRMATION
       /\ attestDelay (vars m') = ATIME_FIXED
       /\ attestDelay (vars m') <> ATIME_CONFIRMATION.
Proof.
  split; [reflexivity|]. split; [vm_compute; discriminate|].
  split; [intros t; discriminate|].
  eexists. split; [vm_compute; reflexivity|].
  repeat split; vm_compute; discriminate.
Qed.

(** C7 as the specification words it fails for a large number of minutes:
    153722868 minutes do not fit the [int64] nanoseconds of a [Duration],
    and [atimeNewAttestation] wraps to a negative duration. *)
Lemma timing_wraps_around :
  0 < NewAttestationMinutes (Timing longConfig)
  /\ exists m,
       NewAttestService (lib := sampleLib) longConfig = Started m
       /\ atimeNewAttestation (vars m) = -9223371993709551616
       /\ atimeNewAttestation (vars m)
          <> NewAttestationMinutes (Timing longConfig) * Minute.
Proof.
  split; [reflexivity|].
  eexists. split; [vm_compute; reflexivity|].
  split; [reflexivity | vm_compute; discriminate].
Qed.

(** C2: an error raised during the Init handler that never reaches the
    failure helper.  An unconfirmed attestation is in the mempool, the store
    answers, and the wallet call [GetRawTransaction] fails the way the RPC
    client fails, with a nil result next to the error.  The handler drops
    the error and reads through the result: the tick panics, no error is
    stored and the state is not Error.  The process ends there, whatever
    signals would follow: its history ends with the wallet call and the
    release of the wait group, so no tick follows and none enters Init.
    The same failure of the wallet raised in AwaitConfirmation, where the
    handler hands the error to [setFailure], is stored and sets the Error
    state, and the tick that follows sets Init. *)
Theorem wallet_error_in_init_not_stored :
  getUnconfirmedTx walletDownWorld = (true, sampleTxid, None)
  /\ GetAttestationCommitment walletDownWorld sampleTxid [false]
     = (sampleCommitment, None)
  /\ GetRawTransaction walletDownWorld sampleTxid
     = (None, Some "connection refused")
  /\ (exists m',
         doAttestation (lib := sampleLib) walletDownWorld
           (sampleMachine ASTATE_INIT NewAttestationDefault 0) = Panic m'
         /\ errorState (svc m') = None
         /\ state (svc m') = ASTATE_INIT
         /\ state (svc m') <> ASTATE_ERROR)
  /\ (forall sigs : list Signal,
         exists m',
           Process (lib := sampleLib) sampleConfig
             (TimerFired walletDownWorld :: sigs) = Some (Panic m')
           /\ errorState (svc m') = None
           /\ state (svc m') = ASTATE_INIT
           /\ history m'
              = [Log "Time new attestation set to: %v\n";
                 Log "Time handle unconfirmed set to: %v\n";
                 NewTimer (30 * Second);
                 Log "*AttestService* INITIATING ATTESTATION PROCESS";
                 ClientGetUnconfirmedTx;
                 ServerGetAttestationCommitment sampleTxid [false];
                 Log "********** found unconfirmed attestation: %s\n";
                 WalletGetRawTransaction sampleTxid;
                 WgDone])
  /\ (GetTransaction walletDownWorld (Txid sampleAttestation)
      = (None, Some "connection refused")
      /\ exists m1 m2,
           doAttestation (lib := sampleLib) walletDownWorld
             (sampleMachine ASTATE_AWAIT_CONFIRMATION sampleAttestation 0)
           = Ok tt m1
           /\ errorState (svc m1) = Some "connection refused"
           /\ state (svc m1) = ASTATE_ERROR
           /\ doAttestation (lib := sampleLib) quietWorld m1 = Ok tt m2
           /\ state (svc m2) = ASTATE_INIT).
Proof.
  split; [reflexivity|]. split; [reflexivity|]. split; [reflexivity|].
  split; [|split].
  - eexists. split; [vm_compute; reflexivity|].
    repeat split. discriminate.
  - intros sigs. eexists. split; [vm_compute; reflexivity|].
    repeat split.
  - split; [reflexivity|].
    eexists. eexists. split; [vm_compute; reflexivity|].
    split; [reflexivity|]. split; [reflexivity|].
    split; [vm_compute; reflexivity | reflexivity].
Qed.

(** C10: the Init handlers at a failing wallet.  The wallet calls fail
    the way the RPC client fails, with a nil result next to the error.  The
    handlers drop the error and read through the result ([rawTx.MsgTx()]):
    the unconfirmed handler and the unspent handler both panic, the
    transaction of the attestation is not set, and the state is neither
    advanced nor set to Error. *)
Theorem init_handlers_wallet_down :
  snd (GetRawTransaction walletDownWorld sampleTxid)
  = Some "connection refused"
  /\ GetAttestationCommitment walletDownWorld sampleTxid [false]
     = (sampleCommitment, None)
  /\ (exists m',
         stateInitUnconfirmed walletDownWorld sampleTxid
           (sampleMachine ASTATE_INIT NewAttestationDefault 0) = Panic m'
         /\ state (svc m') = ASTATE_INIT
         /\ Tx (attestation (svc m')) = MsgTx_zero)
  /\ (exists m',
         stateInitUnspent (lib := sampleLib) walletDownUnspentWorld
           sampleUnspent
           (sampleMachine ASTATE_INIT NewAttestationDefault 0) = Panic m'
         /\ state (svc m') = ASTATE_INIT
         /\ Tx (attestation (svc m')) = MsgTx_zero)
  /\ (exists m',
         doAttestation (lib := sampleLib) walletDownWorld
           (sampleMachine ASTATE_INIT NewAttestationDefault 0) = Panic m'
         /\ state (svc m') = ASTATE_INIT)
  /\ (exists m',
         doAttestation (lib := sampleLib) walletDownUnspentWorld
           (sampleMachine ASTATE_INIT NewAttestationDefault 0) = Panic m'
         /\ state (svc m') = ASTATE_INIT).
Proof.
  split; [reflexivity|]. split; [reflexivity|].
  repeat split; eexists; (split; [vm_compute; reflexivity|]);
    repeat split.
Qed.

(** * Scenarios *)

(** S1, cold start with an existing confirmed tip: the store is updated
    with the confirmed attestation, the signers receive the root of its
    commitment, and the driver reaches NextCommitment. *)
Example cold_start_confirmed_tip :
  exists m a,
    doAttestation (lib := sampleLib) quietWorld
      (sampleMachine ASTATE_INIT NewAttestationDefault 0) = Ok tt m
    /\ state (svc m) = ASTATE_NEXT_COMMITMENT
    /\ attestation (svc m) = a
    /\ Confirmed a = true
    /\ In (ServerUpdateLatestAttestation a None) (history m)
    /\ In (SignerSendConfirmedHash (root sampleCommitment)) (history m).
Proof.
  eexists. eexists. split; [vm_compute; reflexivity|].
  split; [reflexivity|]. split; [reflexivity|]. split; [reflexivity|].
  split; vm_compute; tauto.
Qed.

(** S3, an attestation unconfirmed for too long: the driver goes to
    HandleUnconfirmed, publishes the bumped transaction again and goes to
    SignAttestation with the delay for signatures. *)
Example long_unconfirmed_bumps :
  visited (lib := sampleLib) [lateWorld; lateWorld]
    (sampleMachine ASTATE_AWAIT_CONFIRMATION sampleAttestation 0)
  = [ASTATE_AWAIT_CONFIRMATION; ASTATE_HANDLE_UNCONFIRMED;
     ASTATE_SIGN_ATTESTATION]
  /\ exists m,
       doAttestation (lib := sampleLib) lateWorld
         (sampleMachine ASTATE_HANDLE_UNCONFIRMED sampleAttestation 0)
       = Ok tt m
       /\ attestDelay (vars m) = ATIME_SIGS
       /\ In (SignerSendNewTx (Serialize (BtcLib := sampleLib) sampleTx))
            (history m).
Proof.
  split; [vm_compute; reflexivity|].
  eexists. split; [vm_compute; reflexivity|].
  split; [reflexivity | vm_compute; tauto].
Qed.

(** An attestation still in the mempool within the time limit: the driver
    stays in AwaitConfirmation and waits [ATIME_CONFIRMATION]. *)
Example still_pending :
  exists m,
    doAttestation (lib := sampleLib) pendingWorld
      (sampleMachine ASTATE_AWAIT_CONFIRMATION sampleAttestation 0) = Ok tt m
    /\ svc m = svc (sampleMachine ASTATE_AWAIT_CONFIRMATION sampleAttestation 0)
    /\ attestDelay (vars m) = 15 * Minute.
Proof.
  eexists. split; [vm_compute; reflexivity|]. split; reflexivity.
Qed.

(** S5, a configuration with a timing of zero minutes. *)
Example zero_minutes_default :
  exists m,
    NewAttestService (lib := sampleLib)
      {| InitTx := sampleInitTx;
         Timing := {| NewAttestationMinutes := 0;
                      HandleUnconfirmedMinutes := -1 |};
         Regtest := false |} = Started m
    /\ atimeNewAttestation (vars m) = 60 * Minute
    /\ atimeHandleUnconfirmed (vars m) = 60 * Minute
    /\ history m =
       [Log WARNING_INVALID_ATIME_NEW_ATTESTATION_ARG;
        Log "Time new attestation set to: %v\n";
        Log WARNING_INVALID_ATIME_HANDLE_UNCONFIRMED_ARG;
        Log "Time handle unconfirmed set to: %v\n"].
Proof.
  eexists. split; [vm_compute; reflexivity|]. repeat split.
Qed.

(** * Further properties of the driver *)

Section MoreProperties.

Context {lib : BtcLib}.

Ltac run_tick :=
  unfold_driver; cbn;
  repeat (first [ rewrite log_each_spec | split_match ]; cbn).

(** ** Invariants of the loop, in general *)

Section LoopInvariant.

Variable P : Machine -> Prop.

Hypothesis P_tick :
  forall (w : World) (m : Machine) (r : Result unit),
    P m -> doAttestation w m = r -> P (machine_of r).

Hypothesis P_frame :
  forall (m : Machine) (d : Duration) (evs : list Event),
    Forall loop_event evs -> P m -> P (framed m d evs).

Lemma RunIteration_preserves (sig : Signal) (m : Machine) :
  P m -> P (machine_of (RunIteration sig m)).
Proof.
  intro HP. destruct m as [s [an ah d ct] tr].
  unfold RunIteration, set_attestDelay, with_vars, bind, gets, log, emit,
    modify, ret.
  cbn.
  destruct sig as [|w].
  - cbn.
    apply (P_frame {| svc := s; vars := Build_Globals an ah d ct; trace := tr |}
             d [Log "Shutting down Attestation Service..."; NewTimer d]);
      [repeat constructor | exact HP].
  - match goal with
    | |- context [doAttestation w ?m0] =>
        assert (HP0 : P m0);
        [ apply (P_frame
                   {| svc := s; vars := Build_Globals an ah d ct; trace := tr |}
                   d [NewTimer d]); [repeat constructor | exact HP]
        | pose proof (P_tick w m0 _ HP0 eq_refl) as HP1;
          destruct (doAttestation w m0) as [[] m1|m1] ]
    end; cbn in *; [|exact HP1].
    destruct m1 as [s1 [an1 ah1 d1 ct1] tr1]; cbn.
    destruct (isRegtest s1); cbn.
    + apply (P_frame
               {| svc := s1; vars := Build_Globals an1 ah1 d1 ct1; trace := tr1 |}
               (10 * Second) [Log "********** sleeping for: %s ...\n"]);
        [repeat constructor | exact HP1].
    + apply (P_frame
               {| svc := s1; vars := Build_Globals an1 ah1 d1 ct1; trace := tr1 |}
               d1 [Log "********** sleeping for: %s ...\n"]);
        [repeat constructor | exact HP1].
Qed.

Lemma RunLoop_preserves (sigs : list Signal) (m : Machine) :
  P m -> P (machine_of (RunLoop sigs m)).
Proof.
  revert m; induction sigs as [|sig rest IH]; intros m HP; cbn.
  - exact HP.
  - unfold bind. pose proof (RunIteration_preserves sig m HP) as H1.
    destruct (RunIteration sig m) as [[] m1|m1]; cbn in *; auto.
Qed.

Lemma Run_preserves (sigs : list Signal) (m : Machine) :
  P m -> P (machine_of (Run sigs m)).
Proof.
  intro HP. unfold Run, bind.
  destruct m as [s [an ah d ct] tr].
  unfold set_attestDelay, modify, with_vars, emit. cbn.
  match goal with
  | |- context [RunLoop sigs ?m0] =>
      assert (HP0 : P m0);
      [ apply (P_frame
                 {| svc := s; vars := Build_Globals an ah d ct; trace := tr |}
                 (30 * Second) []); [constructor | exact HP]
      | pose proof (RunLoop_preserves sigs m0 HP0) as HP1;
        destruct (RunLoop sigs m0) as [[] m1|m1] ]
  end; cbn in *; auto.
  - destruct m1 as [s1 [an1 ah1 d1 ct1] tr1].
    apply (P_frame
             {| svc := s1; vars := Build_Globals an1 ah1 d1 ct1; trace := tr1 |}
             d1 [WgDone]); [repeat constructor | exact HP1].
  - destruct m1 as [s1 [an1 ah1 d1 ct1] tr1].
    apply (P_frame
             {| svc := s1; vars := Build_Globals an1 ah1 d1 ct1; trace := tr1 |}
             d1 [WgDone]); [repeat constructor | exact HP1].
Qed.

End LoopInvariant.

Lemma Process_preserves (P : Machine -> Prop) :
  (forall (w : World) (m : Machine) (r : Result unit),
      P m -> doAttestation w m = r -> P (machine_of r)) ->
  (forall (m : Machine) (d : Duration) (evs : list Event),
      Forall loop_event evs -> P m -> P (framed m d evs)) ->
  forall (config : Config) (sigs : list Signal) (m0 : Machine)
         (r : Result unit),
    NewAttestService config = Started m0 ->
    P m0 ->
    Process config sigs = Some r ->
    P (machine_of r).
Proof.
  intros Ht Hf config sigs m0 r Hs HP0. unfold Process. rewrite Hs.
  intro H; inversion H; subst. apply Run_preserves; assumption.
Qed.

Lemma NewAttestService_initial (config : Config) (m : Machine) :
  NewAttestService config = Started m ->
  state (svc m) = ASTATE_INIT
  /\ errorState (svc m) = None
  /\ attestation (svc m) = NewAttestationDefault
  /\ isRegtest (svc m) = Regtest config
  /\ Forall loop_event (trace m).
Proof.
  unfold NewAttestService.
  destruct (NewHashFromStr (InitTx config)) as [p [e|]]; [discriminate|].
  destruct (NewAttestationMinutes (Timing config) >? 0);
    destruct (HandleUnconfirmedMinutes (Timing config) >? 0);
    intro H; inversion H; subst; cbn; repeat split; repeat constructor.
Qed.

(** ** The transaction id once signed *)

(** X1: in every run of the process, while the driver is in PreSendStore
    or SendAttestation the txid of the attestation is the hash of its
    transaction. *)
Theorem txid_is_hash_once_signed
    (config : Config) (sigs : list Signal) (r : Result unit) :
  Process config sigs = Some r ->
  state (svc (machine_of r)) = ASTATE_PRE_SEND_STORE
  \/ state (svc (machine_of r)) = ASTATE_SEND_ATTESTATION ->
  Txid (attestation (svc (machine_of r)))
  = TxHash (Tx (attestation (svc (machine_of r)))).
Proof.
  intro HP.
  destruct (NewAttestService config) as [evs|m0] eqn:Hs;
    [unfold Process in HP; rewrite Hs in HP; discriminate|].
  revert HP.
  apply (Process_preserves
           (fun m => state (svc m) = ASTATE_PRE_SEND_STORE
                     \/ state (svc m) = ASTATE_SEND_ATTESTATION ->
                     Txid (attestation (svc m))
                     = TxHash (Tx (attestation (svc m))))
           ) with (m0 := m0); [| |exact Hs|].
  - intros w m r0.
    destruct m as [[st a e b] [an ah d ct] tr]; destruct st; cbn; intro H0.
    all: run_tick.
    all: intros <-; cbn.
    all: intros [H1|H1]; try discriminate; auto.
  - intros m d evs _ H. exact H.
  - destruct (NewAttestService_initial _ _ Hs) as (H1 & _).
    rewrite H1. intros [H|H]; discriminate.
Qed.

(** ** What one tick leaves alone *)

(** X2: a tick writes [errorState] only when it fails: after any tick,
    also one that panics, either [errorState] is what it was, or the state
    is Error and an error is stored.  So an error once stored is never
    cleared, not by the Error handler and not by later successful ticks,
    and it stays stored over any run of the loop. *)
Theorem error_state_never_cleared :
  (forall (w : World) (m : Machine) (r : Result unit),
      doAttestation w m = r ->
      errorState (svc (machine_of r)) = errorState (svc m)
      \/ (state (svc (machine_of r)) = ASTATE_ERROR
          /\ exists e, errorState (svc (machine_of r)) = Some e))
  /\ (forall (sigs : list Signal) (m : Machine),
         errorState (svc m) <> None ->
         errorState (svc (machine_of (Run sigs m))) <> None).
Proof.
  assert (Htick : forall (w : World) (m : Machine) (r : Result unit),
             doAttestation w m = r ->
             errorState (svc (machine_of r)) = errorState (svc m)
             \/ (state (svc (machine_of r)) = ASTATE_ERROR
                 /\ exists e, errorState (svc (machine_of r)) = Some e)).
  { intros w m r.
    destruct m as [[st a e b] [an ah d ct] tr]; destruct st.
    all: run_tick.
    all: intros <-; cbn.
    all: first [left; reflexivity | right; split; [reflexivity | eexists; reflexivity]]. }
  split; [exact Htick|].
  intros sigs m.
  apply (Run_preserves (fun m => errorState (svc m) <> None)).
  - intros w m0 r H0 Hr. destruct (Htick w m0 r Hr) as [H|[_ [e H]]];
      rewrite H; [exact H0 | discriminate].
  - intros m0 d evs _ H. exact H.
Qed.

(** X3: from NewAttestation until the confirmation, a tick never changes
    the commitment the attestation is bound to: whatever the collaborators
    answer, and also when the tick fails or panics, the commitment after the
    tick is the commitment before it. *)
Theorem commitment_fixed_in_flight
    (w : World) (m : Machine) (r : Result unit) :
  in_flight (state (svc m)) = true ->
  doAttestation w m = r ->
  commitment (attestation (svc (machine_of r)))
  = commitment (attestation (svc m))
  /\ CommitmentHash (attestation (svc (machine_of r)))
     = CommitmentHash (attestation (svc m)).
Proof.
  destruct m as [[st a e b] [an ah d ct] tr]; destruct st; cbn;
    intro H; try discriminate.
  all: run_tick.
  all: intros <-; cbn; split; reflexivity.
Qed.


(** X5: the delay a tick leaves, by the state it ends in.  A tick that
    ends in Error, Init, NewAttestation, PreSendStore, SendAttestation or
    HandleUnconfirmed leaves the fixed 5 seconds; one that ends in
    SignAttestation leaves [ATIME_SIGS]; one that ends in AwaitConfirmation
    leaves [ATIME_CONFIRMATION], or the 5 seconds when it comes from Init;
    one that ends in NextCommitment leaves the 5 seconds from Init,
    [atimeNewAttestation] from NextCommitment, and [atimeNewAttestation]
    less the time since [confirmTime] from AwaitConfirmation. *)
Theorem delay_schedule (w : World) (m m' : Machine) :
  doAttestation w m = Ok tt m' ->
  match state (svc m') with
  | ASTATE_SIGN_ATTESTATION => attestDelay (vars m') = ATIME_SIGS
  | ASTATE_AWAIT_CONFIRMATION =>
      (state (svc m) = ASTATE_INIT /\ attestDelay (vars m') = ATIME_FIXED)
      \/ ((state (svc m) = ASTATE_SEND_ATTESTATION
           \/ state (svc m) = ASTATE_AWAIT_CONFIRMATION)
          /\ attestDelay (vars m') = ATIME_CONFIRMATION)
  | ASTATE_NEXT_COMMITMENT =>
      (state (svc m) = ASTATE_INIT /\ attestDelay (vars m') = ATIME_FIXED)
      \/ (state (svc m) = ASTATE_NEXT_COMMITMENT
          /\ attestDelay (vars m') = atimeNewAttestation (vars m))
      \/ (state (svc m) = ASTATE_AWAIT_CONFIRMATION
          /\ attestDelay (vars m')
             = Duration_sub (atimeNewAttestation (vars m))
                 (Since (clock w 1) (confirmTime (vars m))))
  | _ => attestDelay (vars m') = ATIME_FIXED
  end.
Proof.
  intro H.
  assert (Hgen : forall Q : Machine -> Machine -> Prop,
             (forall r, doAttestation w m = r ->
                        match r with Ok _ m1 => Q m m1 | Panic _ => True end) ->
             Q m m').
  { intros Q HQ. exact (HQ _ H). }
  apply (Hgen (fun m m' =>
    match state (svc m') with
    | ASTATE_SIGN_ATTESTATION => attestDelay (vars m') = ATIME_SIGS
    | ASTATE_AWAIT_CONFIRMATION =>
        (state (svc m) = ASTATE_INIT /\ attestDelay (vars m') = ATIME_FIXED)
        \/ ((state (svc m) = ASTATE_SEND_ATTESTATION
             \/ state (svc m) = ASTATE_AWAIT_CONFIRMATION)
            /\ attestDelay (vars m') = ATIME_CONFIRMATION)
    | ASTATE_NEXT_COMMITMENT =>
        (state (svc m) = ASTATE_INIT /\ attestDelay (vars m') = ATIME_FIXED)
        \/ (state (svc m) = ASTATE_NEXT_COMMITMENT
            /\ attestDelay (vars m') = atimeNewAttestation (vars m))
        \/ (state (svc m) = ASTATE_AWAIT_CONFIRMATION
            /\ attestDelay (vars m')
               = Duration_sub (atimeNewAttestation (vars m))
                   (Since (clock w 1) (confirmTime (vars m))))
    | _ => attestDelay (vars m') = ATIME_FIXED
    end)).
  clear H Hgen m'. intro r.
  destruct m as [[st a e b] [an ah d ct] tr]; destruct st.
  all: run_tick.
  all: intro H; try exact I; try discriminate.
  all: inversion H; subst; cbn in *; try discriminate.
  all: auto 8.
Qed.

(** X6: the transitions of the driver.  A tick that returns ends in one
    of the states of [next_states]; a tick that panics leaves the state as
    it was, and only ticks from Init, NewAttestation, SignAttestation and
    AwaitConfirmation can panic. *)
Theorem tick_transitions (w : World) (m : Machine) :
  match doAttestation w m with
  | Ok _ m' => In (state (svc m')) (next_states (state (svc m)))
  | Panic m' =>
      state (svc m') = state (svc m)
      /\ In (state (svc m))
            [ASTATE_INIT; ASTATE_NEW_ATTESTATION; ASTATE_SIGN_ATTESTATION;
             ASTATE_AWAIT_CONFIRMATION]
  end.
Proof.
  destruct (doAttestation w m) as [[] m'|m'] eqn:E.
  - apply (doAttestation_next w); exact E.
  - revert E.
    destruct m as [[st a e b] [an ah d ct] tr]; destruct st.
    all: run_tick.
    all: intro H; try discriminate.
    all: inversion H; subst; cbn; tauto.
Qed.

(** X7: where the driver can panic.  When the collaborators keep to the
    Go convention for the calls whose error is checked (a nil result comes
    with an error), a tick from any state but Init and NewAttestation
    returns; and a NewAttestation tick returns as well when
    [GetNextAttestationAddr] hands back an address. *)
Theorem panics_only_where_errors_are_dropped (w : World) (m : Machine) :
  conventional w ->
  (state (svc m) <> ASTATE_INIT ->
   state (svc m) <> ASTATE_NEW_ATTESTATION ->
   exists m', doAttestation w m = Ok tt m')
  /\ (state (svc m) = ASTATE_NEW_ATTESTATION ->
      (forall key h, fst (GetNextAttestationAddr w key h) <> None) ->
      exists m', doAttestation w m = Ok tt m').
Proof.
  intros (Hget & Hcreate & Hsign).
  destruct m as [[st a e b] [an ah d ct] tr]; destruct st; cbn; split;
    intros H1 H2; try congruence.
  all: run_tick.
  all: try (eexists; reflexivity).
  all: exfalso.
  all: match goal with
       | Hq : GetTransaction _ ?h = (None, None) |- _ =>
           apply (Hget h); rewrite Hq; reflexivity
       | Hq : createAttestation _ ?x ?y = (None, None) |- _ =>
           apply (Hcreate x y); rewrite Hq; reflexivity
       | Hq : signAttestation _ ?x ?y ?z = (None, None) |- _ =>
           apply (Hsign x y z); rewrite Hq; reflexivity
       | Hq : GetNextAttestationAddr _ ?k ?h = (None, _) |- _ =>
           apply (H2 k h); rewrite Hq; reflexivity
       end.
Qed.

(** ** Init without funds *)

Lemma nothing_found_tick (w : World) (m : Machine) :
  nothing_found w ->
  state (svc m) = ASTATE_INIT ->
  doAttestation w m =
  Ok tt {| svc := svc m;
           vars := {| atimeNewAttestation := atimeNewAttestation (vars m);
                      atimeHandleUnconfirmed := atimeHandleUnconfirmed (vars m);
                      attestDelay := ATIME_FIXED;
                      confirmTime := confirmTime (vars m) |};
           trace := [Log "********** wallet failure";
                     ClientFindLastUnspent;
                     ClientGetUnconfirmedTx;
                     Log "*AttestService* INITIATING ATTESTATION PROCESS"]
                    ++ trace m |}.
Proof.
  intros [[h Hu] [u Hf]].
  destruct m as [[st a e b] [an ah d ct] tr]; cbn. intros ->.
  unfold_driver; cbn. rewrite Hu; cbn. rewrite Hf; cbn. reflexivity.
Qed.

(** X8: Init when the wallet has nothing.  When the attest client finds
    neither an unconfirmed transaction nor an unspent and reports no error,
    the Init tick leaves the service as it is (state Init, same attestation,
    no error stored), asks nothing of the store, the wallet or the signers,
    and leaves the 5 second delay; as long as this lasts the driver stays in
    Init. *)
Theorem init_stalls_when_nothing_found :
  (forall (w : World) (m : Machine),
      nothing_found w ->
      state (svc m) = ASTATE_INIT ->
      doAttestation w m =
      Ok tt {| svc := svc m;
               vars := {| atimeNewAttestation := atimeNewAttestation (vars m);
                          atimeHandleUnconfirmed :=
                            atimeHandleUnconfirmed (vars m);
                          attestDelay := ATIME_FIXED;
                          confirmTime := confirmTime (vars m) |};
               trace := [Log "********** wallet failure";
                         ClientFindLastUnspent;
                         ClientGetUnconfirmedTx;
                         Log "*AttestService* INITIATING ATTESTATION PROCESS"]
                        ++ trace m |})
  /\ (forall (ws : list World) (m : Machine),
         Forall nothing_found ws ->
         state (svc m) = ASTATE_INIT ->
         visited ws m = repeat ASTATE_INIT (S (List.length ws))).
Proof.
  split; [exact nothing_found_tick|].
  intros ws. induction ws as [|w rest IH]; intros m Hall Hs.
  - cbn. rewrite Hs. reflexivity.
  - inversion Hall as [|w' rest' Hw Hrest]; subst.
    cbn [visited]. rewrite (nothing_found_tick w m Hw Hs).
    rewrite IH; [|exact Hrest|exact Hs].
    rewrite Hs. reflexivity.
Qed.

(** ** NewAttestation *)

(** X9: NewAttestation without an unspent.  When the key, the address and
    its import succeed but the attest client finds no unspent (and reports
    no error), the tick stores the error "No valid unspent found" and ends
    in Error; no transaction is created and nothing is sent to the
    signers. *)
Theorem new_attestation_without_unspent
    (w : World) (m : Machine) (key : WIF) (addr : string) (addrErr : error)
    (u : ListUnspentResult) :
  state (svc m) = ASTATE_NEW_ATTESTATION ->
  let root := CommitmentHash (attestation (svc m)) in
  GetNextAttestationKey w root = (key, None) ->
  GetNextAttestationAddr w key root = (Some addr, addrErr) ->
  ImportAttestationAddr w (Some addr) = None ->
  findLastUnspent w = (false, u, None) ->
  doAttestation w m =
  Ok tt {| svc := {| state := ASTATE_ERROR;
                     attestation := attestation (svc m);
                     errorState := Some ERROR_UNSPENT_NOT_FOUND;
                     isRegtest := isRegtest (svc m) |};
           vars := {| atimeNewAttestation := atimeNewAttestation (vars m);
                      atimeHandleUnconfirmed := atimeHandleUnconfirmed (vars m);
                      attestDelay := ATIME_FIXED;
                      confirmTime := confirmTime (vars m) |};
           trace := [ClientFindLastUnspent;
                     ClientImportAttestationAddr (Some addr);
                     Log "********** importing pay-to addr: %s ...\n";
                     ClientGetNextAttestationAddr key root;
                     ClientGetNextAttestationKey root;
                     Log "*AttestService* NEW ATTESTATION"]
                    ++ trace m |}.
Proof.
  destruct m as [[st a e b] [an ah d ct] tr]; cbn.
  intros -> Hk Ha Hi Hf.
  unfold_driver; cbn. rewrite Hk; cbn. rewrite Ha; cbn. rewrite Hi; cbn.
  rewrite Hf; cbn. reflexivity.
Qed.

(** X10: the inputs of a new attestation.  When the key, the address,
    its import and the search of the unspents succeed, the transaction is
    created from the last unspent alone, or from the last unspent followed
    by the topup unspent when there is one; the transaction created becomes
    the transaction of the attestation, its serialisation is sent to the
    signers, and the tick ends in SignAttestation with the delay
    [ATIME_SIGS]. *)
Theorem new_attestation_inputs
    (w : World) (m : Machine) (key : WIF) (addr : string) (addrErr : error)
    (u t : ListUnspentResult) (topupFound : bool) (tx : MsgTx) :
  state (svc m) = ASTATE_NEW_ATTESTATION ->
  let root := CommitmentHash (attestation (svc m)) in
  let inputs := if topupFound then [u; t] else [u] in
  GetNextAttestationKey w root = (key, None) ->
  GetNextAttestationAddr w key root = (Some addr, addrErr) ->
  ImportAttestationAddr w (Some addr) = None ->
  findLastUnspent w = (true, u, None) ->
  findTopupUnspent w = (topupFound, t, None) ->
  createAttestation w (Some addr) inputs = (Some tx, None) ->
  doAttestation w m =
  Ok tt {| svc := {| state := ASTATE_SIGN_ATTESTATION;
                     attestation := set_Tx tx (attestation (svc m));
                     errorState := errorState (svc m);
                     isRegtest := isRegtest (svc m) |};
           vars := {| atimeNewAttestation := atimeNewAttestation (vars m);
                      atimeHandleUnconfirmed := atimeHandleUnconfirmed (vars m);
                      attestDelay := ATIME_SIGS;
                      confirmTime := confirmTime (vars m) |};
           trace := [SignerSendNewTx (Serialize tx);
                     Log "********** pre-sign txid: %s\n";
                     ClientCreateAttestation (Some addr) inputs;
                     ClientFindTopupUnspent;
                     ClientFindLastUnspent;
                     ClientImportAttestationAddr (Some addr);
                     Log "********** importing pay-to addr: %s ...\n";
                     ClientGetNextAttestationAddr key root;
                     ClientGetNextAttestationKey root;
                     Log "*AttestService* NEW ATTESTATION"]
                    ++ trace m |}.
Proof.
  destruct m as [[st a e b] [an ah d ct] tr]; cbn.
  intros -> Hk Ha Hi Hf Ht Hc.
  unfold_driver; cbn. rewrite Hk; cbn. rewrite Ha; cbn. rewrite Hi; cbn.
  rewrite Hf; cbn. rewrite Ht; cbn.
  destruct topupFound; cbn in *; rewrite Hc; cbn; reflexivity.
Qed.

(** ** The loop *)

Lemma RunIteration_stops (sig : Signal) (m m1 : Machine) :
  RunIteration sig m = Ok false m1 ->
  trace m1 = Log "Shutting down Attestation Service..."
             :: NewTimer (attestDelay (vars m)) :: trace m.
Proof.
  destruct m as [s [an ah d ct] tr].
  unfold RunIteration, set_attestDelay, with_vars, bind, gets, log, emit,
    modify, ret.
  cbn. destruct sig as [|w]; cbn.
  - intro H; inversion H; subst. reflexivity.
  - match goal with
    | |- context [doAttestation w ?m0] =>
        destruct (doAttestation w m0) as [[] m2|m2]
    end; cbn; [|discriminate].
    destruct (isRegtest (svc m2)); cbn; discriminate.
Qed.

Lemma RunLoop_after_CtxDone (pre post : list Signal) (m : Machine) :
  RunLoop (pre ++ CtxDone :: post) m = RunLoop (pre ++ [CtxDone]) m.
Proof.
  revert m; induction pre as [|sig pre IH]; intro m; cbn [app RunLoop].
  - unfold bind. destruct (RunIteration CtxDone m) as [[] m1|m1] eqn:E;
      try reflexivity.
    exfalso. revert E. destruct m as [s [an ah d ct] tr].
    unfold RunIteration, bind, gets, log, emit, modify, ret. cbn.
    discriminate.
  - unfold bind. destruct (RunIteration sig m) as [[] m1|m1];
      [apply IH | reflexivity | reflexivity].
Qed.

Lemma RunLoop_CtxDone_shape (pre : list Signal) (m m1 : Machine) (b : bool) :
  RunLoop (pre ++ [CtxDone]) m = Ok b m1 ->
  b = false
  /\ exists d older,
       trace m1 = Log "Shutting down Attestation Service..."
                  :: NewTimer d :: older.
Proof.
  revert m; induction pre as [|sig pre IH]; intro m; cbn [app RunLoop];
    unfold bind.
  - destruct (RunIteration CtxDone m) as [[] m2|m2] eqn:E; cbn.
    + exfalso. revert E. destruct m as [s [an ah d ct] tr].
      unfold RunIteration, bind, gets, log, emit, modify, ret. cbn.
      discriminate.
    + unfold ret. intro H; inversion H; subst. split; [reflexivity|].
      apply RunIteration_stops in E. eauto.
    + discriminate.
  - destruct (RunIteration sig m) as [[] m2|m2] eqn:E; cbn.
    + apply IH.
    + unfold ret. intro H; inversion H; subst. split; [reflexivity|].
      apply RunIteration_stops in E. eauto.
    + discriminate.
Qed.

(** X11: the loop ends at the cancellation of the context.  Whatever
    comes after the first cancellation is not run: [Run] over signals with
    a cancellation is [Run] over the signals up to it.  When [Run] returns,
    the last things it did are creating the timer of the pass, logging the
    shutdown and releasing the wait group. *)
Theorem shutdown_ends_the_loop (pre post : list Signal) (m : Machine) :
  Run (pre ++ CtxDone :: post) m = Run (pre ++ [CtxDone]) m
  /\ forall m' : Machine,
       Run (pre ++ [CtxDone]) m = Ok tt m' ->
       exists d older,
         trace m' = WgDone
                    :: Log "Shutting down Attestation Service..."
                    :: NewTimer d :: older.
Proof.
  split.
  - unfold Run, bind. 
    destruct (set_attestDelay (30 * Second) m) as [[] m0|m0]; [|reflexivity].
    rewrite RunLoop_after_CtxDone. reflexivity.
  - intro m'. unfold Run, bind.
    destruct (set_attestDelay (30 * Second) m) as [[] m0|m0] eqn:E0;
      [|discriminate].
    destruct (RunLoop (pre ++ [CtxDone]) m0) as [b m1|m1] eqn:E;
      [|discriminate].
    destruct (RunLoop_CtxDone_shape pre m0 m1 b E) as (-> & d & older & Ht).
    unfold emit, modify. intro H; inversion H; subst. cbn.
    rewrite Ht. eauto.
Qed.

Lemma extends_compose (a b c : list Event) :
  extends a b -> extends b c -> extends a c.
Proof. intros [x ->] [y ->]. exists (y ++ x). apply app_assoc. Qed.

Lemma RunLoop_extends (sigs : list Signal) (m : Machine) :
  extends (trace m) (trace (machine_of (RunLoop sigs m))).
Proof.
  revert m; induction sigs as [|sig rest IH]; intro m; cbn [RunLoop].
  - apply extends_refl.
  - unfold bind. pose proof (RunIteration_extends sig m) as Hx.
    assert (Hx' : extends (trace m) (trace (machine_of (RunIteration sig m)))).
    { apply (extends_compose _ (NewTimer (attestDelay (vars m)) :: trace m));
        [apply extends_cons, extends_refl | exact Hx]. }
    destruct (RunIteration sig m) as [[] m1|m1]; cbn in *; auto.
    apply (extends_compose _ (trace m1)); [exact Hx' | apply IH].
Qed.

(** X12: the first timer.  Whatever the delay variable held, the first
    thing [Run] does on a service is to create a timer of 30 seconds. *)
Theorem first_timer_is_thirty_seconds
    (sig : Signal) (sigs : list Signal) (m : Machine) :
  exists evs,
    history (machine_of (Run (sig :: sigs) m))
    = history m ++ NewTimer (30 * Second) :: evs.
Proof.
  assert (Hx : extends (NewTimer (30 * Second) :: trace m)
                 (trace (machine_of (Run (sig :: sigs) m)))).
  { destruct m as [s [an ah d ct] tr].
    unfold Run, bind, set_attestDelay, modify, with_vars. cbn [RunLoop].
    unfold bind. cbn.
    match goal with
    | |- context [RunIteration sig ?m0] =>
        pose proof (RunIteration_extends sig m0) as H1;
        destruct (RunIteration sig m0) as [[] m1|m1]
    end; cbn in *.
    - pose proof (RunLoop_extends sigs m1) as H2.
      destruct (RunLoop sigs m1) as [[] m2|m2]; cbn in *;
        try apply extends_cons;
        apply (extends_compose _ (trace m1)); assumption.
    - apply extends_cons. exact H1.
    - apply extends_cons. exact H1. }
  destruct Hx as [evs Hevs]. exists (rev evs).
  unfold history. rewrite Hevs, rev_app_distr. cbn.
  rewrite <- app_assoc. reflexivity.
Qed.

(** ** The order of the events *)

Lemma notified_logs (format : string) (n : nat) (tr : list Event) :
  notified tr -> notified (repeat (Log format) n ++ tr).
Proof. induction n; cbn; auto. Qed.

Lemma notified_loop (evs tr : list Event) :
  Forall loop_event evs -> notified tr -> notified (evs ++ tr).
Proof.
  induction 1 as [|e evs He _ IH]; cbn; auto.
  intro Htr. destruct e; cbn in *; auto; contradiction.
Qed.

Lemma notified_tail (e : Event) (tr : list Event) :
  notified (e :: tr) -> notified tr.
Proof. destruct e; cbn; tauto. Qed.

Lemma notified_split (newer older : list Event) (bytes : list byte) :
  notified (newer ++ SignerSendConfirmedHash bytes :: older) ->
  bytes = CloneBytes zeroHash
  \/ exists a, In (ServerUpdateLatestAttestation a None) older
               /\ Confirmed a = true
               /\ CloneBytes (CommitmentHash a) = bytes.
Proof.
  induction newer as [|e newer IH]; cbn [app].
  - cbn. tauto.
  - intro H. apply IH. exact (notified_tail _ _ H).
Qed.

Lemma doAttestation_notified (w : World) (m : Machine) (r : Result unit) :
  notified (trace m) -> doAttestation w m = r ->
  notified (trace (machine_of r)).
Proof.
  destruct m as [[st a e b] [an ah d ct] tr]; destruct st; cbn; intro H0.
  all: run_tick.
  all: intros <-; cbn.
  all: repeat split; auto.
  all: try (apply notified_logs; assumption).
  all: right; eexists;
    (split; [first [left; reflexivity | right; left; reflexivity]|]);
    split; reflexivity.
Qed.

(** X13: the confirmed hash follows the store.  In every run of the
    process, a confirmed hash sent to the signers is either the zero hash
    (the staychain is being initiated from an unspent without a stored
    commitment) or the commitment root of an attestation that was marked
    confirmed and saved by a successful store update earlier in the run. *)
Theorem confirmed_hash_follows_store
    (config : Config) (sigs : list Signal) (r : Result unit)
    (pre post : list Event) (bytes : list byte) :
  Process config sigs = Some r ->
  history (machine_of r) = pre ++ SignerSendConfirmedHash bytes :: post ->
  bytes = CloneBytes zeroHash
  \/ exists a, In (ServerUpdateLatestAttestation a None) pre
               /\ Confirmed a = true
               /\ CloneBytes (CommitmentHash a) = bytes.
Proof.
  intros HP Hh.
  destruct (NewAttestService config) as [evs|m0] eqn:Hs;
    [unfold Process in HP; rewrite Hs in HP; discriminate|].
  assert (Hn : notified (trace (machine_of r))).
  { revert HP.
    apply (Process_preserves (fun m => notified (trace m)))
      with (m0 := m0); [| |exact Hs|].
    - intros w m r0. apply doAttestation_notified.
    - intros m d evs Hevs H. cbn. apply notified_loop; assumption.
    - destruct (NewAttestService_initial _ _ Hs) as (_ & _ & _ & _ & Hl).
      rewrite <- (app_nil_r (trace m0)). apply notified_loop; [exact Hl|].
      exact I. }
  unfold history in Hh.
  assert (Ht : trace (machine_of r)
               = rev post ++ SignerSendConfirmedHash bytes :: rev pre).
  { rewrite <- (rev_involutive (trace (machine_of r))), Hh.
    rewrite rev_app_distr. cbn. rewrite <- app_assoc. reflexivity. }
  rewrite Ht in Hn. apply notified_split in Hn.
  destruct Hn as [Hz|(a & Hin & Hc & Hb)]; [left; exact Hz|].
  right. exists a. split; [apply in_rev; exact Hin | auto].
Qed.

Lemma published_logs (format : string) (n : nat) (tr : list Event) :
  published tr -> published (repeat (Log format) n ++ tr).
Proof. induction n; cbn; auto. Qed.

Lemma published_loop (evs tr : list Event) :
  Forall loop_event evs -> published tr -> published (evs ++ tr).
Proof.
  induction 1 as [|e evs He _ IH]; cbn; auto.
  intro Htr. destruct e; cbn in *; auto; contradiction.
Qed.

Lemma published_tail (e : Event) (tr : list Event) :
  published (e :: tr) -> published tr.
Proof. destruct e; cbn; tauto. Qed.

Lemma published_split (newer older : list Event) (tx : MsgTx) (sigs : Sigs)
    (h : Hash) :
  published (newer ++ ClientSignAttestation tx sigs h :: older) ->
  In (SignerSendNewTx (Serialize tx)) older.
Proof.
  induction newer as [|e newer IH]; cbn [app].
  - cbn. tauto.
  - intro H. apply IH. exact (published_tail _ _ H).
Qed.

Lemma doAttestation_published (w : World) (m : Machine) (r : Result unit) :
  awaiting_published m -> doAttestation w m = r ->
  awaiting_published (machine_of r).
Proof.
  unfold awaiting_published.
  destruct m as [[st a e b] [an ah d ct] tr]; destruct st; cbn;
    intros (H1 & H2).
  all: run_tick.
  all: intros <-; cbn.
  all: repeat split; intros; try discriminate; auto.
  all: try (apply published_logs; assumption).
  all: try (left; reflexivity).
  all: repeat first [ exact (H1 eq_refl) | right | (apply in_or_app; right) ].
Qed.

(** X14: signing follows publishing.  In every run of the process, a
    transaction handed to [signAttestation] has had its serialisation sent
    to the signers earlier in the run, be it a new attestation or one whose
    fees were bumped. *)
Theorem signing_follows_publishing
    (config : Config) (sigs : list Signal) (r : Result unit)
    (pre post : list Event) (tx : MsgTx) (collected : Sigs) (h : Hash) :
  Process config sigs = Some r ->
  history (machine_of r)
  = pre ++ ClientSignAttestation tx collected h :: post ->
  In (SignerSendNewTx (Serialize tx)) pre.
Proof.
  intros HP Hh.
  destruct (NewAttestService config) as [evs|m0] eqn:Hs;
    [unfold Process in HP; rewrite Hs in HP; discriminate|].
  assert (Hn : awaiting_published (machine_of r)).
  { revert HP.
    apply (Process_preserves awaiting_published) with (m0 := m0);
      [| |exact Hs|].
    - intros w m r0. apply doAttestation_published.
    - intros m d evs Hevs (H1 & H2). split; cbn.
      + intro Hst. apply in_or_app. right. auto.
      + apply published_loop; assumption.
    - destruct (NewAttestService_initial _ _ Hs) as (Hst & _ & _ & _ & Hl).
      split.
      + rewrite Hst. discriminate.
      + rewrite <- (app_nil_r (trace m0)). apply published_loop; [exact Hl|].
        exact I. }
  destruct Hn as [_ Hn]. unfold history in Hh.
  assert (Ht : trace (machine_of r)
               = rev post ++ ClientSignAttestation tx collected h :: rev pre).
  { rewrite <- (rev_involutive (trace (machine_of r))), Hh.
    rewrite rev_app_distr. cbn. rewrite <- app_assoc. reflexivity. }
  rewrite Ht in Hn. apply published_split in Hn.
  apply in_rev. exact Hn.
Qed.

End MoreProperties.

(** * Properties of the store *)

Section StoreProperties.

Variable HashString : Hash -> string.
Variable CommitmentMerkleProof : Type.
Variable Marshal : CommitmentMerkleProof -> list byte * dberror.
Variable ReadDocument : list byte -> option Document * dberror.
Variable GetMerkleCommitments : Commitment -> list Hash.
Variable GetMerkleProofs : Commitment -> list CommitmentMerkleProof.
Variable answers : nat -> dberror.

Lemma DbState_eta (s : DbState) :
  {| issued := issued s; answered := answered s |} = s.
Proof. destruct s; reflexivity. Qed.

Lemma saveMerkleCommitments_from_ok (cs : list Hash) :
  forall (merkleRoot : Hash) (pos : Z) (s : DbState),
    (forall i, (i < List.length cs)%nat ->
               is_failure (answers (answered s + i)) = false) ->
    saveMerkleCommitments_from HashString answers merkleRoot pos cs s =
    (None, {| issued := issued s ++ commitment_upserts HashString merkleRoot pos cs;
              answered := answered s + List.length cs |}).
Proof.
  induction cs as [|c rest IH]; intros merkleRoot pos s Hok.
  - cbn. rewrite app_nil_r, Nat.add_0_r, DbState_eta. reflexivity.
  - cbn [saveMerkleCommitments_from]. unfold dbbind, findOneAndUpdate, dbprintf, dbret.
    pose proof (Hok 0%nat ltac:(cbn; lia)) as H0.
    rewrite Nat.add_0_r in H0. rewrite H0.
    rewrite IH.
    + cbn. rewrite <- app_assoc. cbn. do 3 f_equal. lia.
    + intros i Hi. cbn.
      replace (S (answered s + i)) with (answered s + S i)%nat by lia.
      apply Hok. cbn. lia.
Qed.

Lemma saveMerkleCommitments_from_fails (cs : list Hash) :
  forall (k : nat) (merkleRoot : Hash) (pos : Z) (s : DbState),
    (k < List.length cs)%nat ->
    (forall i, (i < k)%nat -> is_failure (answers (answered s + i)) = false) ->
    is_failure (answers (answered s + k)) = true ->
    saveMerkleCommitments_from HashString answers merkleRoot pos cs s =
    (answers (answered s + k),
     {| issued := issued s
                  ++ commitment_upserts HashString merkleRoot pos
                       (firstn (S k) cs)
                  ++ [DbPrintf "couldn't be created: %v\n"];
        answered := answered s + S k |}).
Proof.
  induction cs as [|c rest IH]; intros k merkleRoot pos s Hk Hok Hbad.
  - cbn in Hk. lia.
  - cbn [saveMerkleCommitments_from]. unfold dbbind, findOneAndUpdate, dbprintf, dbret.
    destruct k as [|k].
    + rewrite Nat.add_0_r in Hbad |- *. rewrite Hbad.
      cbn. rewrite <- app_assoc. cbn. do 3 f_equal. lia.
    + pose proof (Hok 0%nat ltac:(lia)) as H0.
      rewrite Nat.add_0_r in H0. rewrite H0.
      rewrite (IH k).
      * cbn. replace (S (answered s + k)) with (answered s + S k)%nat by lia.
        rewrite <- app_assoc. cbn. do 3 f_equal. lia.
      * cbn in Hk. lia.
      * intros i Hi. cbn.
        replace (S (answered s + i)) with (answered s + S i)%nat by lia.
        apply Hok. lia.
      * cbn. replace (S (answered s + k)) with (answered s + S k)%nat by lia.
        exact Hbad.
Qed.

(** What [saveMerkleCommitments_from] issues, whatever the database
    answers: the upserts of a prefix of the commitments and, on an error,
    the printed line. *)
Lemma saveMerkleCommitments_from_shape (cs : list Hash) :
  forall (merkleRoot : Hash) (pos : Z) (s : DbState),
    exists k,
      (k <= List.length cs)%nat /\
      issued (snd (saveMerkleCommitments_from HashString answers merkleRoot
                     pos cs s)) =
      issued s
      ++ commitment_upserts HashString merkleRoot pos (firstn k cs)
      ++ match fst (saveMerkleCommitments_from HashString answers merkleRoot
                      pos cs s) with
         | Some _ => [DbPrintf "couldn't be created: %v\n"]
         | None => []
         end /\
      answered (snd (saveMerkleCommitments_from HashString answers merkleRoot
                       pos cs s)) = (answered s + k)%nat /\
      (fst (saveMerkleCommitments_from HashString answers merkleRoot pos cs s)
       = None ->
       k = List.length cs /\
       forall i, (i < List.length cs)%nat ->
                 is_failure (answers (answered s + i)) = false).
Proof.
  induction cs as [|c rest IH]; intros merkleRoot pos s.
  - exists 0%nat. cbn. rewrite app_nil_r. repeat split; lia.
  - cbn [saveMerkleCommitments_from]. unfold dbbind, findOneAndUpdate, dbprintf, dbret.
    destruct (is_failure (answers (answered s))) eqn:Hf.
    + exists 1%nat. cbn. rewrite <- app_assoc. cbn.
      destruct (answers (answered s)) as [e|]; [|discriminate].
      repeat split; first [lia | discriminate].
    + match goal with
      | |- context [saveMerkleCommitments_from _ _ _ ?p rest ?s1] =>
          destruct (IH merkleRoot p s1) as (k & Hk & Hi & Ha & Hn)
      end.
      exists (S k). cbn in Hi, Ha, Hn |- *.
      split; [lia|]. split; [|split].
      * rewrite Hi. rewrite <- app_assoc. reflexivity.
      * rewrite Ha. lia.
      * intros Hnone. destruct (Hn Hnone) as [-> Hall]. split; [reflexivity|].
        intros [|i] Hlt.
        -- rewrite Nat.add_0_r. exact Hf.
        -- replace (answered s + S i)%nat with (S (answered s + i)) by lia.
           apply Hall. lia.
Qed.

(** [saveMerkleProofs_from] issues nothing but upserts on ["MerkleProof"]
    and printed lines. *)
Lemma saveMerkleProofs_from_shape (ps : list CommitmentMerkleProof) :
  forall (merkleRoot : Hash) (pos : Z) (s : DbState),
    exists post,
      issued (snd (saveMerkleProofs_from HashString Marshal ReadDocument
                     answers merkleRoot pos ps s)) = issued s ++ post /\
      forall e, In e post -> ~ writes_to "MerkleCommitment" e.
Proof.
  induction ps as [|p rest IH]; intros merkleRoot pos s.
  - exists []. cbn. rewrite app_nil_r. split; [reflexivity|]. intros e [].
  - cbn [saveMerkleProofs_from].
    destruct (Marshal p) as [el [e|]].
    { exists []. cbn. rewrite app_nil_r. split; [reflexivity|]. intros ? []. }
    destruct (ReadDocument el) as [out [e|]].
    { exists []. cbn. rewrite app_nil_r. split; [reflexivity|]. intros ? []. }
    unfold dbbind, findOneAndUpdate, dbprintf, dbret.
    destruct (is_failure (answers (answered s))) eqn:Hf.
    + eexists. cbn. rewrite <- app_assoc. split; [reflexivity|].
      cbn. intros e [<- | [<- | []]]; cbn; [discriminate | tauto].
    + match goal with
      | |- context [saveMerkleProofs_from _ _ _ _ _ ?p0 rest ?s1] =>
          destruct (IH merkleRoot p0 s1) as (post & Hi & Hp)
      end.
      eexists. rewrite Hi. cbn. rewrite <- app_assoc. split; [reflexivity|].
      cbn. intros e [<- | Hin]; [cbn; discriminate | auto].
Qed.

Lemma wrap32_small (z : Z) : 0 <= z < 2 ^ 31 -> wrap32 z = z.
Proof.
  change (2 ^ 31) with 2147483648. intros Hz. unfold wrap32.
  change (2 ^ 31) with 2147483648. change (2 ^ 32) with 4294967296.
  rewrite Z.mod_small by lia. lia.
Qed.

(** The upserts of the loop, with their documents written out. *)
Lemma commitment_upserts_documents (merkleRoot : Hash) (cs : list Hash) :
  forall k : nat,
    Z.of_nat (k + List.length cs) <= 2 ^ 31 ->
    commitment_upserts HashString merkleRoot (Z.of_nat k) cs =
    map (fun pc : nat * Hash =>
           DbFindOneAndUpdate "MerkleCommitment"
             [("merkle_root", BString (HashString merkleRoot));
              ("client_position", BInt32 (Z.of_nat (fst pc)))]
             [("$set", BSubDocument
                         [("merkle_root", BString (HashString merkleRoot))]);
              ("$set", BSubDocument
                         [("client_position", BInt32 (Z.of_nat (fst pc)))]);
              ("$set", BSubDocument
                         [("commitment", BString (HashString (snd pc)))])])
        (combine (seq k (List.length cs)) cs).
Proof.
  induction cs as [|c rest IH]; intros k Hk; [reflexivity|].
  cbn [commitment_upserts List.length seq combine map fst snd].
  cbn [List.length] in Hk.
  unfold filterMerklePosition, newMerkleCommitment, set_element.
  rewrite wrap32_small by (change (2 ^ 31) with 2147483648 in *; lia).
  f_equal.
  replace (Z.of_nat k + 1) with (Z.of_nat (S k)) by lia.
  apply IH. rewrite <- Hk. f_equal. lia.
Qed.

(** X15: [saveMerkleCommitments] with a database that refuses none of
    the writes (an answer of [mongo.ErrNoDocuments], which a first insert
    gives, is no refusal), on a slice whose positions fit an [int32]: it
    returns nil after one upsert per commitment on ["MerkleCommitment"], in
    the order of the slice.  The upsert of the commitment at position [i]
    is filtered by the documents [merkle_root] (the root as a string) and
    [client_position] ([i]), and sets [merkle_root], [client_position] and
    [commitment] (the commitment as a string). *)
Theorem commitments_saved_in_order (merkleRoot : Hash) (cs : list Hash)
    (s : DbState) :
  Z.of_nat (List.length cs) <= 2 ^ 31 ->
  (forall i, (i < List.length cs)%nat ->
             answers (answered s + i) = None \/
             answers (answered s + i) = Some ErrNoDocuments) ->
  saveMerkleCommitments HashString answers merkleRoot cs s =
  (None,
   {| issued :=
        issued s
        ++ map (fun pc : nat * Hash =>
                  DbFindOneAndUpdate "MerkleCommitment"
                    [("merkle_root", BString (HashString merkleRoot));
                     ("client_position", BInt32 (Z.of_nat (fst pc)))]
                    [("$set", BSubDocument
                                [("merkle_root",
                                  BString (HashString merkleRoot))]);
                     ("$set", BSubDocument
                                [("client_position",
                                  BInt32 (Z.of_nat (fst pc)))]);
                     ("$set", BSubDocument
                                [("commitment",
                                  BString (HashString (snd pc)))])])
             (combine (seq 0 (List.length cs)) cs);
      answered := answered s + List.length cs |}).
Proof.
  intros Hlen Hok.
  rewrite <- (commitment_upserts_documents merkleRoot cs 0 Hlen).
  apply saveMerkleCommitments_from_ok.
  intros i Hi. destruct (Hok i Hi) as [-> | ->]; reflexivity.
Qed.

(** X16: [saveMerkleCommitments] stops at the first write the database
    refuses with an error other than [mongo.ErrNoDocuments]: it returns
    that error, has printed one line, and the commitments after that
    position are never written. *)
Theorem commitments_stop_at_first_failure (merkleRoot : Hash)
    (cs : list Hash) (s : DbState) (k : nat) (msg : string) :
  (k < List.length cs)%nat ->
  (forall i, (i < k)%nat ->
             answers (answered s + i) = None \/
             answers (answered s + i) = Some ErrNoDocuments) ->
  answers (answered s + k) = Some (OtherError msg) ->
  saveMerkleCommitments HashString answers merkleRoot cs s =
  (Some (OtherError msg),
   {| issued := issued s
                ++ commitment_upserts HashString merkleRoot 0 (firstn (S k) cs)
                ++ [DbPrintf "couldn't be created: %v\n"];
      answered := answered s + S k |}).
Proof.
  intros Hk Hok Hbad. unfold saveMerkleCommitments.
  rewrite (saveMerkleCommitments_from_fails cs k); try assumption.
  - rewrite Hbad. reflexivity.
  - intros i Hi. destruct (Hok i Hi) as [-> | ->]; reflexivity.
  - rewrite Hbad. reflexivity.
Qed.

(** X17: [saveCommitment] writes the proofs only after every commitment:
    what it issues is the upserts of a prefix of the commitments followed
    by events that never touch ["MerkleCommitment"], and if one of these
    writes to ["MerkleProof"] then the prefix is the whole list and the
    database refused none of the commitment writes. *)
Theorem proofs_follow_commitments (commitment : Commitment) (s : DbState) :
  exists k post,
    issued (snd (saveCommitment HashString Marshal ReadDocument
                   GetMerkleCommitments GetMerkleProofs answers commitment s)) =
    issued s
    ++ commitment_upserts HashString (GetCommitmentHash commitment) 0
         (firstn k (GetMerkleCommitments commitment))
    ++ post /\
    (forall e, In e post -> ~ writes_to "MerkleCommitment" e) /\
    ((exists e, In e post /\ writes_to "MerkleProof" e) ->
     k = List.length (GetMerkleCommitments commitment) /\
     forall i, (i < List.length (GetMerkleCommitments commitment))%nat ->
               is_failure (answers (answered s + i)) = false).
Proof.
  unfold saveCommitment, saveMerkleCommitments, saveMerkleProofs, dbbind, dbret.
  destruct (saveMerkleCommitments_from_shape
              (GetMerkleCommitments commitment)
              (GetCommitmentHash commitment) 0 s) as (k & Hk & Hi & Ha & Hn).
  destruct (saveMerkleCommitments_from HashString answers
              (GetCommitmentHash commitment) 0
              (GetMerkleCommitments commitment) s) as [[e|] s1] eqn:Hrun;
    cbn [fst snd] in Hi, Ha, Hn.
  - exists k, [DbPrintf "couldn't be created: %v\n"]. cbn [snd dbret].
    split; [exact Hi|]. split.
    + intros ev [<- | []]. cbn. tauto.
    + intros (ev & [<- | []] & Hw). cbn in Hw. tauto.
  - destruct (Hn eq_refl) as [-> Hall].
    destruct (saveMerkleProofs_from_shape (GetMerkleProofs commitment)
                (GetCommitmentHash commitment) 0 s1) as (post & Hp & Hnc).
    exists (List.length (GetMerkleCommitments commitment)), post.
    destruct (saveMerkleProofs_from HashString Marshal ReadDocument answers
                (GetCommitmentHash commitment) 0 (GetMerkleProofs commitment)
                s1) as [[e|] s2] eqn:Hrun2; cbn [fst snd dbret] in Hp |- *.
    + rewrite Hp, Hi, app_nil_r, <- app_assoc. auto.
    + rewrite Hp, Hi, app_nil_r, <- app_assoc. auto.
Qed.

(** X18: An answer of [mongo.ErrNoDocuments] is never reported:
    [saveAttestation] and [saveMerkleCommitments] return nil or an error
    other than it. *)
Theorem no_documents_is_not_an_error (now : Z) (attestation : Attestation)
    (confirmed : bool) (merkleRoot : Hash) (cs : list Hash) (s : DbState) :
  fst (saveAttestation HashString answers now attestation confirmed s)
    <> Some ErrNoDocuments /\
  fst (saveMerkleCommitments HashString answers merkleRoot cs s)
    <> Some ErrNoDocuments.
Proof.
  split.
  - unfold saveAttestation, dbbind, findOneAndUpdate, dbprintf, dbret.
    destruct (answers (answered s)) as [[|msg]|]; cbn; discriminate.
  - unfold saveMerkleCommitments. generalize 0. revert s.
    induction cs as [|c rest IH]; intros s pos; [cbn; discriminate|].
    cbn [saveMerkleCommitments_from]. unfold dbbind, findOneAndUpdate, dbprintf, dbret.
    destruct (answers (answered s)) as [[|msg]|]; cbn [is_failure];
      try apply IH.
    cbn. discriminate.
Qed.

End StoreProperties.

(** * Witnesses of the further properties *)

Lemma txid_is_hash_once_signed_witness :
  Txid (attestation (svc (machine_of signedResult)))
  = TxHash (BtcLib := sampleLib) (Tx (attestation (svc (machine_of signedResult)))).
Proof.
  apply (txid_is_hash_once_signed (lib := sampleLib) sampleConfig
           (repeat (TimerFired freshWorld) 5) signedResult).
  - vm_compute. reflexivity.
  - right. vm_compute. reflexivity.
Defined.

Lemma error_state_never_cleared_witness :
  errorState
    (svc (machine_of (Run (lib := sampleLib)
                        [TimerFired quietWorld; TimerFired quietWorld]
                        failedMachine))) <> None.
Proof.
  apply (proj2 (error_state_never_cleared (lib := sampleLib))
           [TimerFired quietWorld; TimerFired quietWorld] failedMachine).
  vm_compute. discriminate.
Defined.

Lemma commitment_fixed_in_flight_witness :
  commitment (attestation (svc failedMachine)) = Some sampleCommitment
  /\ CommitmentHash (attestation (svc failedMachine)) = root sampleCommitment.
Proof.
  apply (commitment_fixed_in_flight (lib := sampleLib) importFailsWorld
           (sampleMachine ASTATE_NEW_ATTESTATION sampleAttestation 0)
           (doAttestation (lib := sampleLib) importFailsWorld
              (sampleMachine ASTATE_NEW_ATTESTATION sampleAttestation 0))).
  - reflexivity.
  - reflexivity.
Defined.


Lemma delay_schedule_witness :
  attestDelay
    (vars (machine_of
             (doAttestation (lib := sampleLib) quietWorld
                (sampleMachine ASTATE_NEW_ATTESTATION sampleAttestation 0))))
  = ATIME_SIGS.
Proof.
  apply (delay_schedule (lib := sampleLib) quietWorld
           (sampleMachine ASTATE_NEW_ATTESTATION sampleAttestation 0)
           (machine_of
              (doAttestation (lib := sampleLib) quietWorld
                 (sampleMachine ASTATE_NEW_ATTESTATION sampleAttestation 0)))).
  vm_compute. reflexivity.
Defined.

Lemma panics_only_where_errors_are_dropped_witness :
  exists m',
    doAttestation (lib := sampleLib) quietWorld
      (sampleMachine ASTATE_AWAIT_CONFIRMATION sampleAttestation 0) = Ok tt m'.
Proof.
  apply (proj1 (panics_only_where_errors_are_dropped (lib := sampleLib)
                  quietWorld
                  (sampleMachine ASTATE_AWAIT_CONFIRMATION sampleAttestation 0)
                  ltac:(repeat split; intros; vm_compute in *; discriminate))).
  - vm_compute. discriminate.
  - vm_compute. discriminate.
Defined.

Lemma init_stalls_when_nothing_found_witness :
  visited (lib := sampleLib) [emptyWalletWorld; emptyWalletWorld]
    (sampleMachine ASTATE_INIT NewAttestationDefault 0)
  = [ASTATE_INIT; ASTATE_INIT; ASTATE_INIT].
Proof.
  apply (proj2 (init_stalls_when_nothing_found (lib := sampleLib))
           [emptyWalletWorld; emptyWalletWorld]
           (sampleMachine ASTATE_INIT NewAttestationDefault 0)).
  - repeat constructor; eexists; reflexivity.
  - reflexivity.
Defined.

Lemma new_attestation_without_unspent_witness :
  machine_of
    (doAttestation (lib := sampleLib) emptyWalletWorld
       (sampleMachine ASTATE_NEW_ATTESTATION sampleAttestation 0))
  = {| svc := {| state := ASTATE_ERROR;
                 attestation := sampleAttestation;
                 errorState := Some ERROR_UNSPENT_NOT_FOUND;
                 isRegtest := false |};
       vars := vars (sampleMachine ASTATE_NEW_ATTESTATION sampleAttestation 0);
       trace := [ClientFindLastUnspent;
                 ClientImportAttestationAddr (Some "addr");
                 Log "********** importing pay-to addr: %s ...\n";
                 ClientGetNextAttestationAddr (Some "key")
                   (root sampleCommitment);
                 ClientGetNextAttestationKey (root sampleCommitment);
                 Log "*AttestService* NEW ATTESTATION"] |}.
Proof.
  rewrite (new_attestation_without_unspent (lib := sampleLib) emptyWalletWorld
             (sampleMachine ASTATE_NEW_ATTESTATION sampleAttestation 0)
             (Some "key") "addr" None sampleUnspent
             eq_refl eq_refl eq_refl eq_refl eq_refl).
  reflexivity.
Defined.

Lemma new_attestation_inputs_witness :
  exists m',
    doAttestation (lib := sampleLib) quietWorld
      (sampleMachine ASTATE_NEW_ATTESTATION sampleAttestation 0) = Ok tt m'
    /\ state (svc m') = ASTATE_SIGN_ATTESTATION
    /\ In (ClientCreateAttestation (Some "addr") [sampleUnspent]) (trace m')
    /\ In (SignerSendNewTx (Serialize (BtcLib := sampleLib) sampleTx)) (trace m').
Proof.
  eexists. split.
  - apply (new_attestation_inputs (lib := sampleLib) quietWorld
             (sampleMachine ASTATE_NEW_ATTESTATION sampleAttestation 0)
             (Some "key") "addr" None sampleUnspent sampleUnspent false
             sampleTx eq_refl eq_refl eq_refl eq_refl eq_refl eq_refl eq_refl).
  - cbn. split; [reflexivity|]. split; tauto.
Defined.

Lemma shutdown_ends_the_loop_witness :
  exists d older,
    trace (machine_of (Run (lib := sampleLib)
                         [TimerFired quietWorld; CtxDone] regtestMachine))
    = WgDone :: Log "Shutting down Attestation Service..."
      :: NewTimer d :: older.
Proof.
  apply (proj2 (shutdown_ends_the_loop (lib := sampleLib)
                  [TimerFired quietWorld] [] regtestMachine)).
  vm_compute. reflexivity.
Defined.

Lemma confirmed_hash_follows_store_witness :
  repeat x02 32 = CloneBytes zeroHash
  \/ exists a,
       In (ServerUpdateLatestAttestation a None) (firstn 11 sampleHistory)
       /\ Confirmed a = true
       /\ CloneBytes (CommitmentHash a) = repeat x02 32.
Proof.
  apply (confirmed_hash_follows_store (lib := sampleLib) sampleConfig
           sampleSigs sampleResult (firstn 11 sampleHistory)
           (skipn 12 sampleHistory) (repeat x02 32)).
  - vm_compute. reflexivity.
  - vm_compute. reflexivity.
Defined.

Lemma signing_follows_publishing_witness :
  In (SignerSendNewTx (Serialize (BtcLib := sampleLib) sampleTx))
     (firstn 36 sampleHistory).
Proof.
  apply (signing_follows_publishing (lib := sampleLib) sampleConfig
           sampleSigs sampleResult (firstn 36 sampleHistory)
           (skipn 37 sampleHistory) sampleTx [[[x01]]] zeroHash).
  - vm_compute. reflexivity.
  - vm_compute. reflexivity.
Defined.

Lemma commitments_saved_in_order_witness :
  saveMerkleCommitments sampleHashString firstInserts (root sampleCommitment)
    [repeat x01 32; repeat x03 32] emptyDb
  = (None,
     {| issued :=
          [DbFindOneAndUpdate "MerkleCommitment"
             [("merkle_root", BString (sampleHashString (repeat x02 32)));
              ("client_position", BInt32 0)]
             [("$set", BSubDocument
                         [("merkle_root",
                           BString (sampleHashString (repeat x02 32)))]);
              ("$set", BSubDocument [("client_position", BInt32 0)]);
              ("$set", BSubDocument
                         [("commitment",
                           BString (sampleHashString (repeat x01 32)))])];
           DbFindOneAndUpdate "MerkleCommitment"
             [("merkle_root", BString (sampleHashString (repeat x02 32)));
              ("client_position", BInt32 1)]
             [("$set", BSubDocument
                         [("merkle_root",
                           BString (sampleHashString (repeat x02 32)))]);
              ("$set", BSubDocument [("client_position", BInt32 1)]);
              ("$set", BSubDocument
                         [("commitment",
                           BString (sampleHashString (repeat x03 32)))])]];
        answered := 2 |}).
Proof.
  apply (commitments_saved_in_order sampleHashString firstInserts
           (root sampleCommitment) [repeat x01 32; repeat x03 32] emptyDb).
  - vm_compute. discriminate.
  - intros i Hi. right. reflexivity.
Defined.

Lemma commitments_stop_at_first_failure_witness :
  saveMerkleCommitments sampleHashString connectionLost
    (root sampleCommitment) threeCommitments emptyDb
  = (Some (OtherError "connection lost"),
     {| issued := commitment_upserts sampleHashString (root sampleCommitment)
                    0 [repeat x01 32; repeat x02 32]
                  ++ [DbPrintf "couldn't be created: %v\n"];
        answered := 2 |}).
Proof.
  apply (commitments_stop_at_first_failure sampleHashString connectionLost
           (root sampleCommitment) threeCommitments emptyDb 1
           "connection lost").
  - cbn. lia.
  - intros i Hi. left. assert (i = 0%nat) as -> by lia. reflexivity.
  - reflexivity.
Defined.
